(** * Patients API (go-app/main.go): store, HTTP handlers, CORS middleware

    A shallow embedding of [main.go].  The Go program keeps its patients in
    a slice owned by a [Store]; slices are views on backing arrays, so the
    embedding has an explicit memory of backing arrays and models [make],
    [copy], [append] and re-slicing on it.  The store methods run under the
    store's mutex for their whole body, hence each one is an atomic state
    transformer on a [World] (memory + store fields).  Handlers write to an
    [http.ResponseWriter], modelled as a record holding the header map, the
    status line once it has been sent, and the encoded bodies. *)

From Stdlib Require Import ZArith Ascii String.
From stdpp Require Import base numbers option list gmap strings.

Local Open Scope string_scope.
Local Open Scope list_scope.
Local Open Scope Z_scope.

(* ===================================================================== *)
(** ** Library functions used by main.go *)
(* ===================================================================== *)

Module GoLib.

(** [strings.HasPrefix] and [strings.HasSuffix], on the bytes of the
    strings. *)
Definition HasPrefix (s prefix : string) : bool :=
  let ls := list_ascii_of_string s in
  let lp := list_ascii_of_string prefix in
  bool_decide (length lp ≤ length ls)%nat && bool_decide (take (length lp) ls = lp).

Definition HasSuffix (s suffix : string) : bool :=
  let ls := list_ascii_of_string s in
  let lp := list_ascii_of_string suffix in
  bool_decide (length lp ≤ length ls)%nat &&
  bool_decide (drop (length ls - length lp) ls = lp).

(** [strings.TrimPrefix]: [s[len(prefix):]] when [s] starts with [prefix],
    [s] otherwise. *)
Definition TrimPrefix (s prefix : string) : string :=
  if HasPrefix s prefix
  then string_of_list_ascii
         (drop (String.length prefix) (list_ascii_of_string s))
  else s.

(** [strings.TrimSuffix]: [s[:len(s)-len(suffix)]] when [s] ends with
    [suffix], [s] otherwise. *)
Definition TrimSuffix (s suffix : string) : string :=
  if HasSuffix s suffix
  then string_of_list_ascii
         (take (String.length s - String.length suffix) (list_ascii_of_string s))
  else s.

(** Bytes of a string as numbers. *)
Definition byte_of (c : ascii) : Z := Z.of_N (N_of_ascii c).
Definition bytes_of (s : string) : list Z := byte_of <$> list_ascii_of_string s.
Definition string_of_bytes (l : list Z) : string :=
  string_of_list_ascii ((fun z => ascii_of_N (Z.to_N z)) <$> l).

(** The ASCII white space of [unicode.IsSpace]: tab, LF, VT, FF, CR, space. *)
Definition asciiSpace (b : Z) : bool :=
  ((9 <=? b) && (b <=? 13)) || (b =? 32).

(** [unicode.IsSpace] seen through UTF-8: the number of bytes of the white
    space rune encoded at the front of the byte list, if there is one.
    Beyond ASCII these are U+0085, U+00A0, U+1680, U+2000..U+200A, U+2028,
    U+2029, U+202F, U+205F and U+3000. *)
Definition spaceWidth (l : list Z) : option nat :=
  match l with
  | b :: r =>
      if asciiSpace b then Some 1%nat else
      match r with
      | b1 :: r1 =>
          if (b =? 194) && ((b1 =? 133) || (b1 =? 160)) then Some 2%nat else
          match r1 with
          | b2 :: _ =>
              if (b =? 225) && (b1 =? 154) && (b2 =? 128) then Some 3%nat
              else if (b =? 226) && (b1 =? 128) &&
                      (((128 <=? b2) && (b2 <=? 138)) ||
                       (b2 =? 168) || (b2 =? 169) || (b2 =? 175))
                   then Some 3%nat
              else if (b =? 226) && (b1 =? 129) && (b2 =? 159) then Some 3%nat
              else if (b =? 227) && (b1 =? 128) && (b2 =? 128) then Some 3%nat
              else None
          | [] => None
          end
      | [] => None
      end
  | [] => None
  end.

(** The three-byte white space runes: U+1680, U+2000..U+200A, U+2028,
    U+2029, U+202F, U+205F and U+3000, as bytes [b0 b1 b2]. *)
Definition space3 (b0 b1 b2 : Z) : bool :=
  ((b0 =? 225) && (b1 =? 154) && (b2 =? 128))
  || ((b0 =? 226) && (b1 =? 128) &&
      (((128 <=? b2) && (b2 <=? 138)) ||
       (b2 =? 168) || (b2 =? 169) || (b2 =? 175)))
  || ((b0 =? 226) && (b1 =? 129) && (b2 =? 159))
  || ((b0 =? 227) && (b1 =? 128) && (b2 =? 128)).

(** The white space rune encoded at the end of a string, given its bytes
    in reverse order (last byte first): one ASCII byte, or the last two or
    three bytes when they are exactly the encoding of a white space rune. *)
Definition spaceWidthRev (l : list Z) : option nat :=
  match l with
  | b :: r =>
      if asciiSpace b then Some 1%nat else
      match r with
      | b1 :: r1 =>
          if (b1 =? 194) && ((b =? 133) || (b =? 160)) then Some 2%nat else
          match r1 with
          | b2 :: _ => if space3 b2 b1 b then Some 3%nat else None
          | [] => None
          end
      | [] => None
      end
  | [] => None
  end.

(** Strip white space runes from the front; [fuel] bounds the number of
    runes looked at and is the length of the list where it is used. *)
Fixpoint trimFront (width : list Z → option nat) (fuel : nat) (l : list Z)
  : list Z :=
  match fuel with
  | O => l
  | S fuel' =>
      match width l with
      | Some k => trimFront width fuel' (drop k l)
      | None => l
      end
  end.

(** [strings.TrimSpace]: remove leading and trailing white space. *)
Definition TrimSpace (s : string) : string :=
  let l := bytes_of s in
  let l1 := trimFront spaceWidth (length l) l in
  let l2 := rev (trimFront spaceWidthRev (length l1) (rev l1)) in
  string_of_bytes l2.

(** Decimal digits of [strconv.ParseUint(s, 10, 64)], without the range
    check: [None] is the syntax error.  [acc] is the value read so far. *)
Fixpoint parseDigits (s : string) (acc : Z) : option Z :=
  match s with
  | EmptyString => Some acc
  | String c s' =>
      let b := byte_of c in
      if (48 <=? b) && (b <=? 57) then parseDigits s' (10 * acc + (b - 48))
      else None
  end.

Definition ParseUint64 (s : string) : option Z :=
  match s with
  | EmptyString => None
  | _ => match parseDigits s 0 with
         | Some n => if n <? 2 ^ 64 then Some n else None
         | None => None
         end
  end.

(** [strconv.ParseInt(s, 10, 64)]; [None] stands for a non-nil [err]
    (syntax or range). *)
Definition ParseInt (s : string) : option Z :=
  match s with
  | EmptyString => None
  | String c s' =>
      let neg := Ascii.eqb c "-" in
      let digits := if Ascii.eqb c "+" || neg then s' else s in
      match ParseUint64 digits with
      | None => None
      | Some un =>
          if negb neg && (2 ^ 63 <=? un) then None
          else if neg && (2 ^ 63 <? un) then None
          else Some (if neg then - un else un)
      end
  end.

(** [http.StatusText]: the reason phrase of a status code, the empty
    string for a code without one. *)
Definition StatusText (code : Z) : string :=
  match code with
  | 100 => "Continue"
  | 101 => "Switching Protocols"
  | 102 => "Processing"
  | 103 => "Early Hints"
  | 200 => "OK"
  | 201 => "Created"
  | 202 => "Accepted"
  | 203 => "Non-Authoritative Information"
  | 204 => "No Content"
  | 205 => "Reset Content"
  | 206 => "Partial Content"
  | 207 => "Multi-Status"
  | 208 => "Already Reported"
  | 226 => "IM Used"
  | 300 => "Multiple Choices"
  | 301 => "Moved Permanently"
  | 302 => "Found"
  | 303 => "See Other"
  | 304 => "Not Modified"
  | 305 => "Use Proxy"
  | 307 => "Temporary Redirect"
  | 308 => "Permanent Redirect"
  | 400 => "Bad Request"
  | 401 => "Unauthorized"
  | 402 => "Payment Required"
  | 403 => "Forbidden"
  | 404 => "Not Found"
  | 405 => "Method Not Allowed"
  | 406 => "Not Acceptable"
  | 407 => "Proxy Authentication Required"
  | 408 => "Request Timeout"
  | 409 => "Conflict"
  | 410 => "Gone"
  | 411 => "Length Required"
  | 412 => "Precondition Failed"
  | 413 => "Request Entity Too Large"
  | 414 => "Request URI Too Long"
  | 415 => "Unsupported Media Type"
  | 416 => "Requested Range Not Satisfiable"
  | 417 => "Expectation Failed"
  | 418 => "I'm a teapot"
  | 421 => "Misdirected Request"
  | 422 => "Unprocessable Entity"
  | 423 => "Locked"
  | 424 => "Failed Dependency"
  | 425 => "Too Early"
  | 426 => "Upgrade Required"
  | 428 => "Precondition Required"
  | 429 => "Too Many Requests"
  | 431 => "Request Header Fields Too Large"
  | 451 => "Unavailable For Legal Reasons"
  | 500 => "Internal Server Error"
  | 501 => "Not Implemented"
  | 502 => "Bad Gateway"
  | 503 => "Service Unavailable"
  | 504 => "Gateway Timeout"
  | 505 => "HTTP Version Not Supported"
  | 506 => "Variant Also Negotiates"
  | 507 => "Insufficient Storage"
  | 508 => "Loop Detected"
  | 510 => "Not Extended"
  | 511 => "Network Authentication Required"
  | _ => ""
  end.

End GoLib.

(* ===================================================================== *)
(** ** Data model *)
(* ===================================================================== *)

(** [type Patient struct]; [ID] is an [int64], kept as a [Z]. *)
Record Patient := mkPatient {
  ID : Z;
  Fullname : string;
  Sex : string;
  Birthdate : string;
  Address : string
}.

(** The zero value of [Patient], as [var p Patient] and [make] give it. *)
Definition zeroPatient : Patient := mkPatient 0 "" "" "" "".

Definition setID (p : Patient) (v : Z) : Patient :=
  mkPatient v (Fullname p) (Sex p) (Birthdate p) (Address p).
Definition setFullname (p : Patient) (v : string) : Patient :=
  mkPatient (ID p) v (Sex p) (Birthdate p) (Address p).
Definition setSex (p : Patient) (v : string) : Patient :=
  mkPatient (ID p) (Fullname p) v (Birthdate p) (Address p).
Definition setBirthdate (p : Patient) (v : string) : Patient :=
  mkPatient (ID p) (Fullname p) (Sex p) v (Address p).
Definition setAddress (p : Patient) (v : string) : Patient :=
  mkPatient (ID p) (Fullname p) (Sex p) (Birthdate p) v.

(** [int64] arithmetic wraps around (two's complement). *)
Definition wrap64 (z : Z) : Z := (z + 2 ^ 63) mod 2 ^ 64 - 2 ^ 63.

(** A slice header [[]Patient]: the backing array it points into (by
    address), the offset of its first element there, its length and its
    capacity. *)
Record Slice := mkSlice { base : nat; off : nat; len : nat; cap : nat }.

(** The memory of backing arrays: the array at address [a] is the [a]-th
    entry; allocation appends an entry, so an address is never reused. *)
Abbreviation Mem := (list (list Patient)).

(** What an [interface{}] holds in this program. *)
Inductive Any : Type :=
  | Nil
  | APatient (p : Patient)
  | ASlice (s : Slice).

(** [type Response struct]. *)
Record Response := mkResponse { Code : Z; Status : string; Data : Any }.

(** [type ResponseError struct] (fields [Code], [Status], [Error]). *)
Record ResponseError := mkResponseError {
  ECode : Z;
  EStatus : string;
  Error : string
}.

(** [type Store struct]; the mutex is held for the whole body of every
    method, so it does not appear: a method is one atomic step. *)
Record Store := mkStore { users : Slice; nextID : Z }.

(** The state the methods run on: the memory and the one [*Store]. *)
Record World := mkWorld { mem : Mem; store : Store }.

(* ===================================================================== *)
(** ** Slices *)
(* ===================================================================== *)

(** The runtime's growth policy for [append]: the capacity of the new
    backing array, from the old capacity and the length needed.  Go only
    promises that the new array is large enough. *)
Class SliceGrowth := {
  growcap : nat → nat → nat;
  growcap_ge : ∀ oldcap needed : nat, (needed ≤ growcap oldcap needed)%nat
}.

(** Go panics on an index or a bound out of range.  The model has no
    panic: in a well-formed store every index the methods use comes from a
    scan of the slice's own elements and is in range ([scan_in_range]). *)
Module Slices.

(** The elements [s[0], ..., s[len(s)-1]]. *)
Definition elems (m : Mem) (s : Slice) : list Patient :=
  take (len s) (drop (off s) (default [] (m !! base s))).

(** [s[i]] read and [s[i] = p] write. *)
Definition index (m : Mem) (s : Slice) (i : nat) : Patient :=
  default zeroPatient (elems m s !! i).

Definition setIndex (m : Mem) (s : Slice) (i : nat) (p : Patient) : Mem :=
  alter (λ arr, <[(off s + i)%nat := p]> arr) (base s) m.

(** [s[:j]] and [s[i:]]. *)
Definition sliceTo (s : Slice) (j : nat) : Slice :=
  mkSlice (base s) (off s) j (cap s).

Definition sliceFrom (s : Slice) (i : nat) : Slice :=
  mkSlice (base s) (off s + i) (len s - i) (cap s - i).

(** Overwrite [arr[k], arr[k+1], ...] with [xs] (a [memmove]). *)
Definition blit (k : nat) (xs arr : list Patient) : list Patient :=
  take k arr ++ xs ++ drop (k + length xs) arr.

(** [make([]Patient, n)]: a fresh zeroed array. *)
Definition make (m : Mem) (n : nat) : Mem * Slice :=
  (m ++ [replicate n zeroPatient], mkSlice (length m) 0 n n).

(** [copy(dst, src)]: copies [min(len(dst), len(src))] elements. *)
Definition copy (m : Mem) (dst src : Slice) : Mem * nat :=
  let n := (len dst `min` len src)%nat in
  (alter (blit (off dst) (take n (elems m src))) (base dst) m, n).

Section Append.
Context `{SliceGrowth}.

(** [append(s, xs...)]: in place when the capacity suffices, else into a
    fresh, larger array.  [xs] has been read before anything is written. *)
Definition append (m : Mem) (s : Slice) (xs : list Patient) : Mem * Slice :=
  let n := (len s + length xs)%nat in
  if bool_decide (n ≤ cap s)%nat then
    (alter (blit (off s + len s) xs) (base s) m,
     mkSlice (base s) (off s) n (cap s))
  else
    let c := growcap (cap s) n in
    (m ++ [elems m s ++ xs ++ replicate (c - n) zeroPatient],
     mkSlice (length m) 0 n c).

End Append.
End Slices.

(* ===================================================================== *)
(** ** The store *)
(* ===================================================================== *)

(** [func NewStore() *Store], on an empty memory. *)
Definition NewStore : World :=
  let '(m, s) := Slices.make [] 0 in mkWorld m (mkStore s 1).

(** First index [i] with [s.users[i].ID == id] (the loops' scan). *)
Definition scan (id : Z) (l : list Patient) : option (nat * Patient) :=
  list_find (λ p, ID p = id) l.

Module Store.
Section Methods.
Context `{SliceGrowth}.

(** [func (s *Store) List() Response] *)
Definition List (w : World) : Response * World :=
  let s := store w in
  let '(m1, out) := Slices.make (mem w) (len (users s)) in
  let '(m2, _) := Slices.copy m1 out (users s) in
  (mkResponse 200 "Ok" (ASlice out), mkWorld m2 s).

(** [func (s *Store) Get(id int64) (Response, bool)] *)
Definition Get (id : Z) (w : World) : Response * bool * World :=
  match scan id (Slices.elems (mem w) (users (store w))) with
  | Some (_, p) => (mkResponse 200 "Ok" (APatient p), true, w)
  | None => (mkResponse 0 "" Nil, false, w)
  end.

(** [func (s *Store) Create(p Patient) Response] *)
Definition Create (p : Patient) (w : World) : Response * World :=
  let s := store w in
  let p := setID p (nextID s) in
  let next := wrap64 (nextID s + 1) in
  let '(m, u) := Slices.append (mem w) (users s) [p] in
  (mkResponse 201 "Created" (APatient p), mkWorld m (mkStore u next)).

(** One guarded field assignment of [Update]:
    [if upd.F != "" { s.users[i].F = upd.F }]. *)
Definition assign (set : Patient → string → Patient) (v : string)
    (u : Slice) (i : nat) (m : Mem) : Mem :=
  if String.eqb v "" then m
  else Slices.setIndex m u i (set (Slices.index m u i) v).

(** [func (s *Store) Update(id int64, upd Patient) (Response, bool)] *)
Definition Update (id : Z) (upd : Patient) (w : World)
  : Response * bool * World :=
  let s := store w in
  match scan id (Slices.elems (mem w) (users s)) with
  | Some (i, _) =>
      let m := assign setFullname (Fullname upd) (users s) i (mem w) in
      let m := assign setSex (Sex upd) (users s) i m in
      let m := assign setBirthdate (Birthdate upd) (users s) i m in
      let m := assign setAddress (Address upd) (users s) i m in
      (mkResponse 200 "Ok" (APatient (Slices.index m (users s) i)), true,
       mkWorld m s)
  | None => (mkResponse 0 "" Nil, false, w)
  end.

(** [func (s *Store) Delete(id int64) bool] *)
Definition Delete (id : Z) (w : World) : bool * World :=
  let s := store w in
  match scan id (Slices.elems (mem w) (users s)) with
  | Some (i, _) =>
      let tail := Slices.elems (mem w) (Slices.sliceFrom (users s) (i + 1)) in
      let '(m, u) := Slices.append (mem w) (Slices.sliceTo (users s) i) tail in
      (true, mkWorld m (mkStore u (nextID s)))
  | None => (false, w)
  end.

End Methods.
End Store.

(** The patients of the store, in store order. *)
Definition contents (w : World) : list Patient :=
  Slices.elems (mem w) (users (store w)).

(** A slice lies within an allocated array. *)
Definition slice_ok (m : Mem) (s : Slice) : Prop :=
  match m !! base s with
  | Some arr => (off s + cap s ≤ length arr)%nat ∧ (len s ≤ cap s)%nat
  | None => False
  end.

(** Representation invariant of the store. *)
Definition store_ok (w : World) : Prop := slice_ok (mem w) (users (store w)).

(** No two stored patients share an id. *)
Definition ids_unique (w : World) : Prop := NoDup (ID <$> contents w).

(** Calls on the store, their results, and runs of calls. *)
Inductive Op : Type :=
  | OpList
  | OpGet (id : Z)
  | OpCreate (p : Patient)
  | OpUpdate (id : Z) (upd : Patient)
  | OpDelete (id : Z).

Inductive Result : Type :=
  | RList (r : Response)
  | RGet (r : Response) (found : bool)
  | RCreate (r : Response)
  | RUpdate (r : Response) (found : bool)
  | RDelete (found : bool).

Section Runs.
Context `{SliceGrowth}.

Definition exec (o : Op) (w : World) : Result * World :=
  match o with
  | OpList => let '(r, w') := Store.List w in (RList r, w')
  | OpGet id => let '(r, b, w') := Store.Get id w in (RGet r b, w')
  | OpCreate p => let '(r, w') := Store.Create p w in (RCreate r, w')
  | OpUpdate id upd =>
      let '(r, b, w') := Store.Update id upd w in (RUpdate r b, w')
  | OpDelete id => let '(b, w') := Store.Delete id w in (RDelete b, w')
  end.

Fixpoint run (ops : list Op) (w : World) : list Result * World :=
  match ops with
  | [] => ([], w)
  | o :: ops' =>
      let '(r, w1) := exec o w in
      let '(rs, w2) := run ops' w1 in
      (r :: rs, w2)
  end.

End Runs.

(** The ids that the [Create] calls of a run handed out, in call order. *)
Definition created_id (r : Result) : option Z :=
  match r with
  | RCreate (mkResponse _ _ (APatient p)) => Some (ID p)
  | _ => None
  end.

Definition created_ids (rs : list Result) : list Z := omap created_id rs.

Definition is_create (o : Op) : bool :=
  match o with OpCreate _ => true | _ => false end.

(** The number of [Create] calls in a run. *)
Fixpoint creates (ops : list Op) : nat :=
  match ops with
  | [] => 0%nat
  | o :: ops' => ((if is_create o then 1 else 0) + creates ops')%nat
  end.

(** A growth policy to run examples with: double, or take what is needed. *)
Definition doubling : SliceGrowth :=
  {| growcap oldcap needed := Nat.max needed (2 * oldcap);
     growcap_ge oldcap needed := Nat.le_max_l needed (2 * oldcap) |}.

(* ===================================================================== *)
(** ** HTTP layer *)
(* ===================================================================== *)

(** What a handler reads of an [*http.Request]. *)
Record Request := mkRequest {
  Method : string;   (* r.Method *)
  Path : string;     (* r.URL.Path *)
  Body : string      (* the bytes of r.Body *)
}.

(** [json.NewDecoder(r.Body).Decode(&p)] on a zero [Patient]: the decoded
    value, or [None] for a non-nil [err]. *)
Class JSONDecoder := { decodePatient : string → option Patient }.

(** ** encoding/json, as far as [Decode(&p)] on a [Patient] goes

    [Decode] reads the first JSON value of the body: leading white space is
    skipped, the value must be complete and well formed, and the bytes
    after it are not looked at.  The value is then stored into the
    [Patient]: [null] stores nothing, an object stores its members into
    the fields they name, any other value is an error.  Input is handled
    as bytes; [fuel] bounds the nesting of calls and is two per byte. *)
Module GoJSON.

#[warnings="-register-all"]
Inductive Value : Type :=
  | Null
  | Bool (b : bool)
  | Number (lit : list Z)
  | Str (s : list Z)
  | Array (elems : list Value)
  | Object (members : list (list Z * Value)).

(** The scanner's white space: space, tab, CR, LF. *)
Definition isSpace (c : Z) : bool :=
  (c =? 32) || (c =? 9) || (c =? 13) || (c =? 10).

Fixpoint skipSpace (l : list Z) : list Z :=
  match l with
  | c :: r => if isSpace c then skipSpace r else l
  | [] => []
  end.

Definition isDigit (c : Z) : bool := (48 <=? c) && (c <=? 57).

(** The longest run of digits at the front, and what follows it. *)
Fixpoint digits (l : list Z) : list Z * list Z :=
  match l with
  | c :: r =>
      if isDigit c then let '(ds, r') := digits r in (c :: ds, r')
      else ([], l)
  | [] => ([], [])
  end.

(** An optional part of a number: [None] when it starts and is cut short. *)
Definition fraction (l : list Z) : option (list Z * list Z) :=
  match l with
  | 46 :: r =>
      let '(ds, r') := digits r in
      match ds with [] => None | _ => Some (46 :: ds, r') end
  | _ => Some ([], l)
  end.

Definition exponent (l : list Z) : option (list Z * list Z) :=
  match l with
  | e :: r =>
      if (e =? 101) || (e =? 69) then
        let '(sg, r1) :=
          match r with
          | c :: r' => if (c =? 43) || (c =? 45) then ([c], r') else ([], r)
          | [] => ([], r)
          end in
        let '(ds, r2) := digits r1 in
        match ds with [] => None | _ => Some (e :: sg ++ ds, r2) end
      else Some ([], l)
  | [] => Some ([], l)
  end.

(** A number literal at the front: an optional minus sign, then 0 or a
    digit from 1 to 9 followed by digits, then an optional fraction and an
    optional exponent. *)
Definition number (l : list Z) : option (list Z * list Z) :=
  let '(sign, l1) :=
    match l with
    | c :: r => if c =? 45 then ([c], r) else ([], l)
    | [] => ([], l)
    end in
  match l1 with
  | c :: r =>
      if isDigit c then
        let '(int, r1) :=
          if c =? 48 then ([c], r)
          else let '(ds, r') := digits r in (c :: ds, r') in
        match fraction r1 with
        | None => None
        | Some (frac, r2) =>
            match exponent r2 with
            | None => None
            | Some (exp, r3) => Some (sign ++ int ++ frac ++ exp, r3)
            end
        end
      else None
  | [] => None
  end.

Definition hexVal (c : Z) : option Z :=
  if isDigit c then Some (c - 48)
  else if (97 <=? c) && (c <=? 102) then Some (c - 87)
  else if (65 <=? c) && (c <=? 70) then Some (c - 55)
  else None.

(** Four hex digits at the front, as a number. *)
Definition u4 (l : list Z) : option (Z * list Z) :=
  match l with
  | a :: b :: c :: d :: r =>
      match hexVal a, hexVal b, hexVal c, hexVal d with
      | Some x, Some y, Some z, Some t =>
          Some (4096 * x + 256 * y + 16 * z + t, r)
      | _, _, _, _ => None
      end
  | _ => None
  end.

(** [utf8.EncodeRune] for a code point that is not a surrogate. *)
Definition encodeRune (cp : Z) : list Z :=
  if cp <? 128 then [cp]
  else if cp <? 2048 then [192 + cp / 64; 128 + cp mod 64]
  else if cp <? 65536 then
    [224 + cp / 4096; 128 + (cp / 64) mod 64; 128 + cp mod 64]
  else
    [240 + cp / 262144; 128 + (cp / 4096) mod 64; 128 + (cp / 64) mod 64;
     128 + cp mod 64].

(** U+FFFD, which replaces what is not well-formed. *)
Definition replacement : list Z := [239; 191; 189].

Definition continuation (c : Z) : bool := (128 <=? c) && (c <=? 191).

(** [utf8.DecodeRune] on bytes that start with a byte of 128 or more: the
    width of the encoding at the front, [0] when it is not well formed. *)
Definition utf8Width (l : list Z) : nat :=
  match l with
  | b0 :: r =>
      if (194 <=? b0) && (b0 <=? 223) then
        match r with
        | b1 :: _ => if continuation b1 then 2%nat else 0%nat
        | [] => 0%nat
        end
      else if (224 <=? b0) && (b0 <=? 239) then
        match r with
        | b1 :: b2 :: _ =>
            let lo := if b0 =? 224 then 160 else 128 in
            let hi := if b0 =? 237 then 159 else 191 in
            if (lo <=? b1) && (b1 <=? hi) && continuation b2
            then 3%nat else 0%nat
        | _ => 0%nat
        end
      else if (240 <=? b0) && (b0 <=? 244) then
        match r with
        | b1 :: b2 :: b3 :: _ =>
            let lo := if b0 =? 240 then 144 else 128 in
            let hi := if b0 =? 244 then 143 else 191 in
            if (lo <=? b1) && (b1 <=? hi) && continuation b2
               && continuation b3
            then 4%nat else 0%nat
        | _ => 0%nat
        end
      else 0%nat
  | [] => 0%nat
  end.

(** The byte a one-letter escape stands for. *)
Definition escape (e : Z) : option Z :=
  if e =? 34 then Some 34          (* quote *)
  else if e =? 92 then Some 92     (* backslash *)
  else if e =? 47 then Some 47     (* slash *)
  else if e =? 98 then Some 8      (* b *)
  else if e =? 102 then Some 12    (* f *)
  else if e =? 110 then Some 10    (* n *)
  else if e =? 114 then Some 13    (* r *)
  else if e =? 116 then Some 9     (* t *)
  else None.

(** After a u-escape that is a surrogate: the code point of the pair when
    a low surrogate u-escape follows a high one, with what follows it. *)
Definition surrogatePair (hi : Z) (l : list Z) : option (Z * list Z) :=
  match l with
  | b :: u :: r =>
      if (b =? 92) && (u =? 117) then
        match u4 r with
        | Some (lo, r') =>
            if (55296 <=? hi) && (hi <? 56320)
               && (56320 <=? lo) && (lo <? 57344)
            then Some (65536 + (hi - 55296) * 1024 + (lo - 56320), r')
            else None
        | None => None
        end
      else None
  | _ => None
  end.

(** A string literal after its opening quote: its value and what follows
    the closing quote.  Control bytes and unknown escapes are errors;
    bytes that are not well-formed UTF-8 and lone surrogates become
    U+FFFD. *)
Fixpoint stringBody (fuel : nat) (l : list Z) : option (list Z * list Z) :=
  match fuel with
  | O => None
  | S fuel' =>
      let more (out rest : list Z) :=
        match stringBody fuel' rest with
        | Some (s, r') => Some (out ++ s, r')
        | None => None
        end in
      match l with
      | [] => None
      | c :: r =>
          if c =? 34 then Some ([], r)
          else if c =? 92 then
            match r with
            | e :: r1 =>
                if e =? 117 then
                  match u4 r1 with
                  | None => None
                  | Some (rr, r2) =>
                      if (55296 <=? rr) && (rr <? 57344) then
                        match surrogatePair rr r2 with
                        | Some (cp, r3) => more (encodeRune cp) r3
                        | None => more replacement r2
                        end
                      else more (encodeRune rr) r2
                  end
                else
                  match escape e with
                  | Some b => more [b] r1
                  | None => None
                  end
            | [] => None
            end
          else if c <? 32 then None
          else if c <? 128 then more [c] r
          else
            match utf8Width l with
            | O => more replacement r
            | n => more (take n l) (drop n l)
            end
      end
  end.

Definition maxNestingDepth : Z := 10000.

Definition startsWith (w l : list Z) : bool :=
  bool_decide (take (length w) l = w).

(** A value at the front (after white space) and what follows it; [depth]
    counts the arrays and objects that are open. *)
Fixpoint value (fuel depth : nat) (l : list Z) {struct fuel}
  : option (Value * list Z) :=
  match fuel with
  | O => None
  | S fuel' =>
      match skipSpace l with
      | [] => None
      | c :: r =>
          if c =? 123 then                                   (* { *)
            if maxNestingDepth <=? Z.of_nat depth then None
            else
              match skipSpace r with
              | c' :: r' =>
                  if c' =? 125 then Some (Object [], r')
                  else
                    match members fuel' (S depth) (c' :: r') with
                    | Some (ms, r2) => Some (Object ms, r2)
                    | None => None
                    end
              | [] => None
              end
          else if c =? 91 then                               (* [ *)
            if maxNestingDepth <=? Z.of_nat depth then None
            else
              match skipSpace r with
              | c' :: r' =>
                  if c' =? 93 then Some (Array [], r')
                  else
                    match elements fuel' (S depth) (c' :: r') with
                    | Some (vs, r2) => Some (Array vs, r2)
                    | None => None
                    end
              | [] => None
              end
          else if c =? 34 then
            match stringBody (S (length r)) r with
            | Some (s, r') => Some (Str s, r')
            | None => None
            end
          else if startsWith [116; 114; 117; 101] (c :: r) then
            Some (Bool true, drop 4 (c :: r))
          else if startsWith [102; 97; 108; 115; 101] (c :: r) then
            Some (Bool false, drop 5 (c :: r))
          else if startsWith [110; 117; 108; 108] (c :: r) then
            Some (Null, drop 4 (c :: r))
          else
            match number (c :: r) with
            | Some (lit, r') => Some (Number lit, r')
            | None => None
            end
      end
  end
(** The elements of an array from the front of an element on, up to and
    with the closing bracket. *)
with elements (fuel depth : nat) (l : list Z) {struct fuel}
  : option (list Value * list Z) :=
  match fuel with
  | O => None
  | S fuel' =>
      match value fuel' depth l with
      | None => None
      | Some (v, r) =>
          match skipSpace r with
          | c :: r' =>
              if c =? 44 then
                match elements fuel' depth r' with
                | Some (vs, r2) => Some (v :: vs, r2)
                | None => None
                end
              else if c =? 93 then Some ([v], r')
              else None
          | [] => None
          end
      end
  end
(** The members of an object from the opening quote of a key on, up to
    and with the closing brace. *)
with members (fuel depth : nat) (l : list Z) {struct fuel}
  : option (list (list Z * Value) * list Z) :=
  match fuel with
  | O => None
  | S fuel' =>
      match l with
      | q :: r =>
          if q =? 34 then
            match stringBody (S (length r)) r with
            | None => None
            | Some (k, r1) =>
                match skipSpace r1 with
                | c :: r2 =>
                    if c =? 58 then
                      match value fuel' depth r2 with
                      | None => None
                      | Some (v, r3) =>
                          match skipSpace r3 with
                          | c' :: r4 =>
                              if c' =? 44 then
                                match members fuel' depth (skipSpace r4) with
                                | Some (ms, r5) => Some ((k, v) :: ms, r5)
                                | None => None
                                end
                              else if c' =? 125 then Some ([(k, v)], r4)
                              else None
                          | [] => None
                          end
                      end
                    else None
                | [] => None
                end
            end
          else None
      | [] => None
      end
  end.

(** The first value of a text. *)
Definition first (l : list Z) : option (Value * list Z) :=
  value (2 * length l + 2) 0 l.

(** [json.Valid]: the whole text is one value, white space around it. *)
Definition Valid (body : string) : bool :=
  match first (GoLib.bytes_of body) with
  | Some (_, rest) => bool_decide (skipSpace rest = [])
  | None => false
  end.

Inductive Field : Type := FID | FFullname | FSex | FBirthdate | FAddress.

(** The names in the json tags of [Patient]. *)
Definition fieldNames : list (string * Field) :=
  [("id", FID); ("fullname", FFullname); ("sex", FSex);
   ("birthdate", FBirthdate); ("address", FAddress)].

(** Case folding of a key, as far as it can make a key equal to one of
    the names above: ASCII letters go to upper case, and the two runes
    that fold to ASCII letters, U+017F (long s) and U+212A (Kelvin sign),
    go to S and K. *)
Definition upper (c : Z) : Z :=
  if (97 <=? c) && (c <=? 122) then c - 32 else c.

Fixpoint foldName (k : list Z) : list Z :=
  match k with
  | [] => []
  | c :: r =>
      match r with
      | c1 :: r1 =>
          if (c =? 197) && (c1 =? 191) then 83 :: foldName r1
          else
            match r1 with
            | c2 :: r2 =>
                if (c =? 226) && (c1 =? 132) && (c2 =? 170)
                then 75 :: foldName r2
                else upper c :: foldName r
            | [] => upper c :: foldName r
            end
      | [] => [upper c]
      end
  end.

(** The field a key names: the one with exactly that name, else the one
    whose name is equal to it under case folding. *)
Definition field (k : list Z) : option Field :=
  match list_find (λ nf, GoLib.bytes_of nf.1 = k) fieldNames with
  | Some (_, (_, f)) => Some f
  | None =>
      match list_find (λ nf, foldName (GoLib.bytes_of nf.1) = foldName k)
              fieldNames with
      | Some (_, (_, f)) => Some f
      | None => None
      end
  end.

(** Storing one member: a string into a string field, an integer literal
    within int64 into [ID], [null] into nothing; a member whose key names
    no field is skipped; anything else is an error. *)
Definition store (k : list Z) (v : Value) (p : Patient) : option Patient :=
  match field k with
  | None => Some p
  | Some f =>
      match v with
      | Null => Some p
      | Str s =>
          let x := GoLib.string_of_bytes s in
          match f with
          | FID => None
          | FFullname => Some (setFullname p x)
          | FSex => Some (setSex p x)
          | FBirthdate => Some (setBirthdate p x)
          | FAddress => Some (setAddress p x)
          end
      | Number lit =>
          match f with
          | FID =>
              match GoLib.ParseInt (GoLib.string_of_bytes lit) with
              | Some n => Some (setID p n)
              | None => None
              end
          | _ => None
          end
      | _ => None
      end
  end.

Fixpoint storeAll (ms : list (list Z * Value)) (p : Patient)
  : option Patient :=
  match ms with
  | [] => Some p
  | (k, v) :: ms' =>
      match store k v p with
      | Some p' => storeAll ms' p'
      | None => None
      end
  end.

(** [json.NewDecoder(body).Decode(&p)] with [p] the zero [Patient]. *)
Definition Decode (body : string) : option Patient :=
  match first (GoLib.bytes_of body) with
  | None => None
  | Some (Null, _) => Some zeroPatient
  | Some (Object ms, _) => storeAll ms zeroPatient
  | Some (_, _) => None
  end.

End GoJSON.

(** The decoder of encoding/json. *)
Definition goDecoder : JSONDecoder := {| decodePatient := GoJSON.Decode |}.

(** The JSON documents the handlers send.  A slice is encoded from the
    memory at the time of the call. *)
Inductive Payload : Type :=
  | PNull
  | PObject (p : Patient)
  | PArray (l : list Patient).

Inductive Wire : Type :=
  | WResponse (code : Z) (status : string) (data : Payload)
  | WError (code : Z) (status : string) (error : string).

(** An [http.ResponseWriter]: the header map, the status line with the
    headers as they were when it was sent, and the bodies written. *)
Record ResponseWriter := mkResponseWriter {
  header : gmap string (list string);
  sent : option (Z * gmap string (list string));
  body : list Wire
}.

Definition newResponseWriter : ResponseWriter := mkResponseWriter ∅ None [].

Module HTTP.

Definition StatusOK : Z := 200.
Definition StatusCreated : Z := 201.
Definition StatusNoContent : Z := 204.
Definition StatusBadRequest : Z := 400.
Definition StatusNotFound : Z := 404.
Definition StatusMethodNotAllowed : Z := 405.
Definition StatusInternalServerError : Z := 500.

Definition MethodGet : string := "GET".
Definition MethodPost : string := "POST".
Definition MethodPut : string := "PUT".
Definition MethodDelete : string := "DELETE".
Definition MethodOptions : string := "OPTIONS".

(** [w.Header().Set(k, v)] *)
Definition HeaderSet (k v : string) (w : ResponseWriter) : ResponseWriter :=
  mkResponseWriter (<[k := [v]]> (header w)) (sent w) (body w).

(** [w.WriteHeader(code)]: the first call sends the status line and the
    headers set so far; a later call changes nothing.  This is what
    net/http does with a final status code, 200 to 999.  It panics on a
    code outside 100 .. 999 and sends 100 .. 199 as interim responses;
    the handlers pass none of these (they send 200, 201, 204, 400, 404
    and 405, and 500 for an envelope with code zero), and the record does
    not describe them. *)
Definition WriteHeader (code : Z) (w : ResponseWriter) : ResponseWriter :=
  match sent w with
  | Some _ => w
  | None => mkResponseWriter (header w) (Some (code, header w)) (body w)
  end.

(** [w.Write]: sends the status line with 200 if it has not been sent,
    then the body.  net/http drops a body written after status 204 or
    304; no handler writes one after them, and the record does not
    describe it. *)
Definition Write (x : Wire) (w : ResponseWriter) : ResponseWriter :=
  let w := WriteHeader StatusOK w in
  mkResponseWriter (header w) (sent w) (body w ++ [x]).

End HTTP.

(** The values handed to [writeJSON] as [v interface{}]. *)
Inductive JSONValue : Type :=
  | VResponse (r : Response)
  | VError (e : ResponseError).

(** [json.NewEncoder(w).Encode(v)] up to the concrete syntax. *)
Definition encodeAny (m : Mem) (d : Any) : Payload :=
  match d with
  | Nil => PNull
  | APatient p => PObject p
  | ASlice s => PArray (Slices.elems m s)
  end.

Definition Encode (m : Mem) (v : JSONValue) : Wire :=
  match v with
  | VResponse r => WResponse (Code r) (Status r) (encodeAny m (Data r))
  | VError e => WError (ECode e) (EStatus e) (Error e)
  end.

(** [func writeJSON(w http.ResponseWriter, code int, v interface{})] *)
Definition writeJSON (m : Mem) (w : ResponseWriter) (code : Z) (v : JSONValue)
  : ResponseWriter :=
  let w := HTTP.HeaderSet "Content-Type" "application/json" w in
  let w := HTTP.WriteHeader code w in
  HTTP.Write (Encode m v) w.

(** [func newResponseError(code int, msg string) ResponseError] *)
Definition newResponseError (code : Z) (msg : string) : ResponseError :=
  let status := GoLib.StatusText code in
  let status := if String.eqb status "" then "Error" else status in
  mkResponseError code status msg.

(** [func writeError(w http.ResponseWriter, respErr ResponseError)] *)
Definition writeError (m : Mem) (w : ResponseWriter) (respErr : ResponseError)
  : ResponseWriter :=
  let respErr :=
    if ECode respErr =? 0
    then mkResponseError HTTP.StatusInternalServerError (EStatus respErr)
           (Error respErr)
    else respErr in
  let respErr :=
    if String.eqb (EStatus respErr) ""
    then mkResponseError (ECode respErr) (GoLib.StatusText (ECode respErr))
           (Error respErr)
    else respErr in
  writeJSON m w (ECode respErr) (VError respErr).

(** An [http.Handler], run on the writer, the request and the state. *)
Definition Handler : Type :=
  ResponseWriter → Request → World → ResponseWriter * World.

Definition blank (s : string) : bool := String.eqb (GoLib.TrimSpace s) "".

Section Handlers.
Context `{SliceGrowth} `{JSONDecoder}.

(** The handler registered for ["/patients"]. *)
Definition patientsHandler : Handler := λ w r σ,
  if String.eqb (Method r) HTTP.MethodGet then
    let '(resp, σ) := Store.List σ in
    (writeJSON (mem σ) w HTTP.StatusOK (VResponse resp), σ)
  else if String.eqb (Method r) HTTP.MethodPost then
    match decodePatient (Body r) with
    | None =>
        (writeError (mem σ) w
           (newResponseError HTTP.StatusBadRequest "invalid JSON body"), σ)
    | Some p =>
        if blank (Fullname p) || blank (Sex p) || blank (Birthdate p)
           || blank (Address p)
        then
          (writeError (mem σ) w
             (newResponseError HTTP.StatusBadRequest
                "fullname, sex, birthdate and address are required"), σ)
        else
          let '(created, σ) := Store.Create p σ in
          (writeJSON (mem σ) w HTTP.StatusCreated (VResponse created), σ)
    end
  else
    (writeError (mem σ) w
       (newResponseError HTTP.StatusMethodNotAllowed "method not allowed"), σ).

(** The id segment of a path under ["/patients/"]. *)
Definition idSegment (path : string) : string :=
  GoLib.TrimSuffix (GoLib.TrimPrefix path "/patients/") "/".

(** The method switch of the item handler, once the id is parsed. *)
Definition patientMethods (id : Z) : Handler := λ w r σ,
  if String.eqb (Method r) HTTP.MethodGet then
    let '(p, ok, σ) := Store.Get id σ in
    if negb ok then
      (writeError (mem σ) w
         (newResponseError HTTP.StatusNotFound "patient not found"), σ)
    else (writeJSON (mem σ) w HTTP.StatusOK (VResponse p), σ)
  else if String.eqb (Method r) HTTP.MethodPut then
    match decodePatient (Body r) with
    | None =>
        (writeError (mem σ) w
           (newResponseError HTTP.StatusBadRequest "invalid JSON body"), σ)
    | Some upd =>
        if blank (Fullname upd) && blank (Sex upd) && blank (Birthdate upd)
           && blank (Address upd)
        then
          (writeError (mem σ) w
             (newResponseError HTTP.StatusBadRequest
                "at least one field required to update"), σ)
        else
          let '(updated, ok, σ) := Store.Update id upd σ in
          if negb ok then
            (writeError (mem σ) w
               (newResponseError HTTP.StatusNotFound "patient not found"), σ)
          else (writeJSON (mem σ) w HTTP.StatusOK (VResponse updated), σ)
    end
  else if String.eqb (Method r) HTTP.MethodDelete then
    let '(ok, σ) := Store.Delete id σ in
    if negb ok then
      (writeError (mem σ) w
         (newResponseError HTTP.StatusNotFound "patient not found"), σ)
    else (HTTP.WriteHeader HTTP.StatusNoContent w, σ)
  else
    (writeError (mem σ) w
       (newResponseError HTTP.StatusMethodNotAllowed "method not allowed"), σ).

(** The handler registered for ["/patients/"]. *)
Definition patientHandler : Handler := λ w r σ,
  let idStr := idSegment (Path r) in
  match GoLib.ParseInt idStr with
  | Some id =>
      if String.eqb idStr "" then
        (writeError (mem σ) w
           (newResponseError HTTP.StatusBadRequest "invalid id"), σ)
      else patientMethods id w r σ
  | None =>
      (writeError (mem σ) w
         (newResponseError HTTP.StatusBadRequest "invalid id"), σ)
  end.

(** [func corsMiddleware(next http.Handler) http.Handler] *)
Definition corsMiddleware (next : Handler) : Handler := λ w r σ,
  let w := HTTP.HeaderSet "Access-Control-Allow-Origin" "*" w in
  let w := HTTP.HeaderSet "Access-Control-Allow-Methods"
             "GET, POST, PUT, DELETE, OPTIONS" w in
  let w := HTTP.HeaderSet "Access-Control-Allow-Headers"
             "Content-Type, Authorization" w in
  if String.eqb (Method r) HTTP.MethodOptions then
    (HTTP.WriteHeader HTTP.StatusNoContent w, σ)
  else next w r σ.

(** The two records [main] seeds the store with, and the seeded state. *)
Definition alice : Patient :=
  mkPatient 0 "Alice Example" "F" "1990-01-01" "123 A St".
Definition bob : Patient :=
  mkPatient 0 "Bob Example" "M" "1988-05-05" "456 B Ave".

Definition seeded : World :=
  (Store.Create bob (Store.Create alice NewStore).2).2.

End Handlers.

(** The three headers of [corsMiddleware], added to a header map. *)
Definition corsHeaders (h : gmap string (list string))
  : gmap string (list string) :=
  <["Access-Control-Allow-Headers" := ["Content-Type, Authorization"]]>
    (<["Access-Control-Allow-Methods" := ["GET, POST, PUT, DELETE, OPTIONS"]]>
       (<["Access-Control-Allow-Origin" := ["*"]]> h)).

(** A decoder for a few bodies, to run examples with. *)
Definition quoted (s : string) : string :=
  String (ascii_of_nat 34) (s +:+ String (ascii_of_nat 34) "").

Definition member (k v : string) : string := quoted k +:+ ":" +:+ quoted v.

Definition carolBody : string :=
  "{" +:+ member "fullname" " Carol " +:+ "," +:+ member "sex" "F" +:+ ","
  +:+ member "birthdate" "2000-01-01" +:+ "," +:+ member "address" "x" +:+ "}".

Definition carol : Patient := mkPatient 0 " Carol " "F" "2000-01-01" "x".

Definition sampleDecoder : JSONDecoder :=
  {| decodePatient b :=
       if String.eqb b "{}" then Some zeroPatient
       else if String.eqb b carolBody then Some carol
       else None |}.

(** What [Update] leaves of a stored record [old] when given [upd]: a
    field of [upd] replaces the stored one unless it is the empty string. *)
Definition pick (old new : string) : string :=
  if String.eqb new "" then old else new.

Definition applied (set : Patient → string → Patient) (v : string)
    (p : Patient) : Patient :=
  if String.eqb v "" then p else set p v.

Definition merge (old upd : Patient) : Patient :=
  mkPatient (ID old)
    (pick (Fullname old) (Fullname upd))
    (pick (Sex old) (Sex upd))
    (pick (Birthdate old) (Birthdate upd))
    (pick (Address old) (Address upd)).

(** A step from [w] to [w'] writes only into the store's own backing array
    or into arrays allocated by the step. *)
Definition frames (w w' : World) : Prop :=
  (length (mem w) ≤ length (mem w'))%nat
  ∧ (∀ a : nat, a ≠ base (users (store w)) → (a < length (mem w))%nat →
       mem w' !! a = mem w !! a)
  ∧ (base (users (store w')) = base (users (store w))
     ∨ (length (mem w) ≤ base (users (store w')))%nat).

(** A slice that lives in an allocated array other than the store's. *)
Definition detached (w : World) (s : Slice) : Prop :=
  (base s < length (mem w))%nat ∧ base s ≠ base (users (store w)).

(** The writer after a JSON reply with status [code] and document [x], when
    nothing had been sent on it before. *)
Definition replied (w : ResponseWriter) (code : Z) (x : Wire) : ResponseWriter :=
  let h := <["Content-Type" := ["application/json"]]> (header w) in
  mkResponseWriter h (Some (code, h)) (body w ++ [x]).

(** Sample runs and inputs for the examples. *)
Definition sampleOps : list Op :=
  [OpCreate alice; OpCreate bob; OpDelete 1; OpCreate carol; OpList;
   OpDelete 3; OpCreate (setID carol 1)].

Definition seededD : World := @seeded doubling.

Definition aliceStored : Patient := setID alice 1.
Definition bobStored : Patient := setID bob 2.

(** A partial update whose sex is one space: blank for the handler's
    check, yet not the empty string. *)
Definition spacedSex : Patient := mkPatient 0 "Alice B" " " "" "".

Definition getBadId : Request := mkRequest "GET" "/patients/abc" "".
Definition postCarol : Request := mkRequest "POST" "/patients" carolBody.
Definition putEmpty : Request := mkRequest "PUT" "/patients/1/" "{}".
Definition preflight : Request := mkRequest "OPTIONS" "/no/such/route" "".

#[global] Instance Patient_eq_dec : EqDecision Patient.
Proof. solve_decision. Defined.

(** After [c] creations on a fresh store: the counter stands at [c + 1]
    (modulo 2^64) and the stored ids are distinct numbers of [1 .. c]. *)
Definition ids_fresh (w : World) (c : Z) : Prop :=
  nextID (store w) = wrap64 (1 + c)
  ∧ Forall (λ p, 1 ≤ ID p ≤ c) (contents w)
  ∧ NoDup (ID <$> contents w).

Definition bump (o : Op) : Z := if is_create o then 1 else 0.

(** The record a scan for [id] stops at, if any: the first one in store
    order with that id. *)
Definition lookupID (id : Z) (l : list Patient) : option Patient :=
  snd <$> scan id l.

(** What [Get] returns beside the state, from the record found. *)
Definition getResult (o : option Patient) : Response * bool :=
  match o with
  | Some p => (mkResponse 200 "Ok" (APatient p), true)
  | None => (mkResponse 0 "" Nil, false)
  end.

(** The number of [Delete] calls of a run that returned true. *)
Definition is_deleted (r : Result) : bool :=
  match r with RDelete true => true | _ => false end.

Fixpoint deleted (rs : list Result) : nat :=
  match rs with
  | [] => 0%nat
  | r :: rs' => ((if is_deleted r then 1 else 0) + deleted rs')%nat
  end.

(** Bodies on which decoding and JSON validity part ways: a valid object
    followed by other bytes, and a valid object with a number where the
    string field wants a string; and two bodies that are rejected. *)
Definition garbageBody : string := carolBody +:+ " trailing garbage".

Definition wrongTypeBody : string :=
  "{" +:+ quoted "fullname" +:+ ":5," +:+ member "sex" "F" +:+ ","
  +:+ member "birthdate" "2000-01-01" +:+ "," +:+ member "address" "x" +:+ "}".

Definition blankNameBody : string :=
  "{" +:+ member "fullname" "  " +:+ "," +:+ member "sex" "F" +:+ ","
  +:+ member "birthdate" "2000-01-01" +:+ "," +:+ member "address" "x" +:+ "}".

Definition postGarbage : Request := mkRequest "POST" "/patients" garbageBody.
Definition postWrongType : Request :=
  mkRequest "POST" "/patients" wrongTypeBody.
Definition postBlankName : Request :=
  mkRequest "POST" "/patients" blankNameBody.
Definition postNotJSON : Request := mkRequest "POST" "/patients" "not json".

(** More sample requests. *)
Definition getThree : Request := mkRequest "GET" "/patients/3" "".
Definition getOne : Request := mkRequest "GET" "/patients/1" "".
Definition getAll : Request := mkRequest "GET" "/patients" "".
Definition patchAll : Request := mkRequest "PATCH" "/patients" "".
Definition putCarol : Request := mkRequest "PUT" "/patients/2/" carolBody.
Definition deleteOne : Request := mkRequest "DELETE" "/patients/1" "".

(** The status line a handler sent is one of [codes], with the headers of
    the writer it was given, to which it may have added the content type. *)
Definition sends (codes : list Z) (w w' : ResponseWriter) : Prop :=
  ∃ code : Z, code ∈ codes
    ∧ (sent w' = Some (code, header w)
       ∨ sent w'
         = Some (code, <["Content-Type" := ["application/json"]]> (header w))).

(* ===================================================================== *)
(** ** Facts about the library functions *)
(* ===================================================================== *)

Section TrimFacts.
Local Open Scope nat_scope.

Lemma spaceWidth_bounds l k :
  GoLib.spaceWidth l = Some k → 1 ≤ k ≤ length l.
Proof.
  destruct l as [|b [|b1 [|b2 r]]]; simpl;
    repeat case_match; intros [= <-]; simpl; lia.
Qed.

Lemma spaceWidthRev_bounds l k :
  GoLib.spaceWidthRev l = Some k → 1 ≤ k ≤ length l.
Proof.
  destruct l as [|b [|b1 [|b2 r]]]; simpl;
    repeat case_match; intros [= <-]; simpl; lia.
Qed.

(** The fuel of [trimFront] suffices: with as much fuel as bytes, no white
    space is left at the front. *)
Lemma trimFront_stops (width : list Z → option nat) fuel : ∀ l,
  (∀ l' k, width l' = Some k → 1 ≤ k ≤ length l') →
  length l ≤ fuel →
  width (GoLib.trimFront width fuel l) = None.
Proof.
  induction fuel as [|fuel IH]; intros l Hw Hl; simpl.
  - destruct (width l) as [k|] eqn:E; [|done].
    apply Hw in E. lia.
  - destruct (width l) as [k|] eqn:E; [|done].
    apply IH; [done|]. apply Hw in E. rewrite length_drop. lia.
Qed.

Lemma string_of_bytes_of (s : string) :
  GoLib.string_of_bytes (GoLib.bytes_of s) = s.
Proof.
  unfold GoLib.string_of_bytes, GoLib.bytes_of.
  rewrite <- list_fmap_compose.
  rewrite (list_fmap_ext _ id (list_ascii_of_string s)).
  - rewrite list_fmap_id. apply string_of_list_ascii_of_string.
  - intros i c _. unfold GoLib.byte_of. simpl.
    by rewrite N2Z.id, ascii_N_embedding.
Qed.

Lemma trimFront_none (width : list Z → option nat) fuel l :
  width l = None → GoLib.trimFront width fuel l = l.
Proof. intros E. destruct fuel; simpl; [done|]. by rewrite E. Qed.

Lemma trimFront_drop (width : list Z → option nat) fuel : ∀ l,
  ∃ n, GoLib.trimFront width fuel l = drop n l.
Proof.
  induction fuel as [|fuel IH]; intros l; simpl.
  - by exists 0.
  - destruct (width l) as [k|]; [|by exists 0].
    destruct (IH (drop k l)) as [n ->]. exists (k + n).
    apply drop_drop.
Qed.

(** [TrimSpace] returns its argument when neither its first nor its last
    rune is white space, and always a contiguous part of it. *)
Lemma TrimSpace_untouched (s : string) :
  GoLib.spaceWidth (GoLib.bytes_of s) = None →
  GoLib.spaceWidthRev (rev (GoLib.bytes_of s)) = None →
  GoLib.TrimSpace s = s.
Proof.
  intros Hf Hb. unfold GoLib.TrimSpace. cbv zeta.
  rewrite (trimFront_none _ _ _ Hf), (trimFront_none _ _ _ Hb).
  rewrite rev_involutive. apply string_of_bytes_of.
Qed.

Lemma TrimSpace_window (s : string) :
  ∃ n k, GoLib.TrimSpace s
         = GoLib.string_of_bytes (take k (drop n (GoLib.bytes_of s))).
Proof.
  unfold GoLib.TrimSpace. cbv zeta.
  destruct (trimFront_drop GoLib.spaceWidth (length (GoLib.bytes_of s))
              (GoLib.bytes_of s)) as [n ->].
  set (l1 := drop n (GoLib.bytes_of s)).
  destruct (trimFront_drop GoLib.spaceWidthRev (length l1) (rev l1))
    as [m ->].
  exists n, (length l1 - m). f_equal.
  change (drop m (rev l1)) with (skipn m (rev l1)).
  rewrite skipn_rev, rev_involutive. reflexivity.
Qed.

End TrimFacts.

(* ===================================================================== *)
(** ** Facts about slices *)
(* ===================================================================== *)

Section SliceFacts.
Context `{SliceGrowth}.
Local Open Scope nat_scope.

Lemma elems_at m s arr :
  m !! base s = Some arr → Slices.elems m s = take (len s) (drop (off s) arr).
Proof. intros E. unfold Slices.elems. by rewrite E. Qed.

Lemma elems_length m s : slice_ok m s → length (Slices.elems m s) = len s.
Proof.
  unfold slice_ok. destruct (m !! base s) as [arr|] eqn:E; [|done].
  intros [? ?]. rewrite (elems_at _ _ _ E), length_take, length_drop. lia.
Qed.

Lemma blit_length k xs arr :
  k + length xs ≤ length arr → length (Slices.blit k xs arr) = length arr.
Proof.
  intros. unfold Slices.blit.
  rewrite !length_app, length_take, length_drop. lia.
Qed.

(** Writing [xs] right behind a window of [n] elements extends the window. *)
Lemma blit_window o n xs arr :
  o + n + length xs ≤ length arr →
  take (n + length xs) (drop o (Slices.blit (o + n) xs arr))
  = take n (drop o arr) ++ xs.
Proof.
  intros Hb. unfold Slices.blit.
  rewrite drop_app_le by (rewrite length_take; lia).
  rewrite app_assoc, take_app_length'.
  - by rewrite take_drop_commute.
  - rewrite length_app, length_drop, length_take. lia.
Qed.

(** [append] extends the elements of a well-formed slice by [xs], keeps
    the result well formed, and writes only to the slice's own array or to
    a newly allocated one. *)
Lemma append_spec m s xs m' s' :
  slice_ok m s →
  Slices.append m s xs = (m', s') →
  Slices.elems m' s' = Slices.elems m s ++ xs
  ∧ slice_ok m' s'
  ∧ length m ≤ length m'
  ∧ (∀ a, a ≠ base s → a < length m → m' !! a = m !! a)
  ∧ (base s' = base s ∨ base s' = length m).
Proof.
  unfold slice_ok, Slices.append.
  destruct (m !! base s) as [arr|] eqn:E; [|done]. intros [Hc Hl].
  case_bool_decide as Hn; intros [= <- <-]; simpl.
  - assert (Hk : off s + len s + length xs ≤ length arr) by lia.
    assert (E' : alter (Slices.blit (off s + len s) xs) (base s) m !! base s
                 = Some (Slices.blit (off s + len s) xs arr)).
    { by rewrite list_lookup_alter_eq, E. }
    split_and!.
    + rewrite (elems_at _ (mkSlice _ _ _ _) _ E'); simpl.
      rewrite (elems_at _ _ _ E). by apply blit_window.
    + rewrite E'. rewrite blit_length by lia. lia.
    + by rewrite length_alter.
    + intros a Ha _. by rewrite list_lookup_alter_ne.
    + by left.
  - split_and!.
    + unfold Slices.elems at 1; simpl.
      rewrite lookup_app_r, Nat.sub_diag by done. simpl.
      rewrite drop_0, app_assoc. apply take_app_length'.
      rewrite length_app. f_equal. symmetry. apply elems_length.
      unfold slice_ok. by rewrite E.
    + rewrite lookup_app_r, Nat.sub_diag by done. simpl.
      rewrite !length_app, length_replicate.
      pose proof (growcap_ge (cap s) (len s + length xs)).
      rewrite elems_length by (unfold slice_ok; by rewrite E). lia.
    + rewrite length_app. lia.
    + intros a _ Ha. by rewrite lookup_app_l.
    + by right.
Qed.

End SliceFacts.

(* ===================================================================== *)
(** ** Specifications of the store methods on [contents] *)
(* ===================================================================== *)

Section StoreFacts.
Context `{SliceGrowth}.
Local Open Scope nat_scope.

Lemma scan_Some id l i p :
  scan id l = Some (i, p) →
  l !! i = Some p ∧ ID p = id ∧ ∀ j q, l !! j = Some q → j < i → ID q ≠ id.
Proof. unfold scan. intros Hf. by apply list_find_Some in Hf. Qed.

Lemma scan_None id l : scan id l = None → Forall (λ p, ID p ≠ id) l.
Proof. unfold scan. intros Hf. by apply list_find_None in Hf. Qed.

Lemma scan_found id l p :
  p ∈ l → ID p = id → ∃ i q, scan id l = Some (i, q).
Proof.
  intros Hin Hid. destruct (scan id l) as [[i q]|] eqn:E; [eauto|].
  apply scan_None in E. rewrite Forall_forall in E. by destruct (E p Hin).
Qed.

Lemma scan_in_range id m s i p :
  slice_ok m s → scan id (Slices.elems m s) = Some (i, p) → i < len s.
Proof.
  intros Hok Hs. apply scan_Some in Hs as (Hp & _ & _).
  rewrite <- (elems_length m s Hok). by eapply lookup_lt_Some.
Qed.

Lemma frames_refl w : frames w w.
Proof. unfold frames. split_and!; auto. Qed.

Lemma setIndex_spec m u i q :
  slice_ok m u → i < len u →
  Slices.elems (Slices.setIndex m u i q) u = <[i:=q]> (Slices.elems m u)
  ∧ slice_ok (Slices.setIndex m u i q) u
  ∧ length (Slices.setIndex m u i q) = length m
  ∧ (∀ a, a ≠ base u → Slices.setIndex m u i q !! a = m !! a).
Proof.
  unfold slice_ok, Slices.setIndex.
  destruct (m !! base u) as [arr|] eqn:E; [|done]. intros [Hc Hl] Hi.
  assert (E' : alter (λ arr, <[off u + i:=q]> arr) (base u) m !! base u
               = Some (<[off u + i:=q]> arr)).
  { by rewrite list_lookup_alter_eq, E. }
  split_and!.
  - rewrite (elems_at _ _ _ E'), (elems_at _ _ _ E).
    rewrite drop_insert_ge by lia. rewrite take_insert_lt by lia.
    do 2 f_equal. lia.
  - rewrite E', length_insert. lia.
  - by rewrite length_alter.
  - intros a Ha. by rewrite list_lookup_alter_ne.
Qed.

Lemma assign_spec set v u i m p :
  slice_ok m u → Slices.elems m u !! i = Some p →
  let m' := Store.assign set v u i m in
  Slices.elems m' u = <[i:=applied set v p]> (Slices.elems m u)
  ∧ slice_ok m' u
  ∧ length m' = length m
  ∧ (∀ a, a ≠ base u → m' !! a = m !! a).
Proof.
  intros Hok Hp. unfold Store.assign, applied. simpl.
  destruct (String.eqb v "").
  - split_and!; auto. by rewrite list_insert_id.
  - assert (i < len u).
    { rewrite <- (elems_length m u Hok). by eapply lookup_lt_Some. }
    unfold Slices.index. rewrite Hp; simpl. by apply setIndex_spec.
Qed.

Lemma base_allocated w :
  store_ok w → base (users (store w)) < length (mem w).
Proof.
  unfold store_ok, slice_ok.
  destruct (mem w !! base (users (store w))) eqn:E; [|done].
  intros _. by eapply lookup_lt_Some.
Qed.

Lemma blit_all xs n :
  length xs = n → Slices.blit 0 xs (replicate n zeroPatient) = xs.
Proof.
  intros <-. unfold Slices.blit. simpl.
  rewrite drop_ge by (by rewrite length_replicate). by rewrite app_nil_r.
Qed.

Lemma List_spec w r w' :
  store_ok w → Store.List w = (r, w') →
  ∃ out, r = mkResponse 200%Z "Ok" (ASlice out)
    ∧ base out = length (mem w)
    ∧ mem w' = mem w ++ [contents w]
    ∧ Slices.elems (mem w') out = contents w
    ∧ store w' = store w.
Proof.
  intros Hok. pose proof (base_allocated w Hok) as Hb.
  unfold Store.List, Slices.make, Slices.copy. simpl. intros [= <- <-].
  eexists. split; [reflexivity|]. simpl.
  rewrite Nat.min_id.
  assert (Hel : Slices.elems (mem w ++ [replicate (len (users (store w))) zeroPatient])
                  (users (store w)) = contents w).
  { unfold contents, Slices.elems. by rewrite lookup_app_l. }
  rewrite Hel. rewrite take_ge by (unfold contents; by rewrite elems_length).
  assert (Hm : alter (Slices.blit 0 (contents w)) (length (mem w))
                 (mem w ++ [replicate (len (users (store w))) zeroPatient])
               = mem w ++ [contents w]).
  { rewrite <- (Nat.add_0_r (length (mem w))) at 1. rewrite alter_app_r. simpl.
    rewrite blit_all; [done|]. unfold contents. by apply elems_length. }
  rewrite Hm. split_and!; auto.
  unfold Slices.elems; simpl.
  rewrite lookup_app_r, Nat.sub_diag by done. simpl. rewrite drop_0.
  apply take_ge. unfold contents. by rewrite elems_length.
Qed.

Lemma alloc_keeps w w' k :
  store_ok w → mem w' = mem w ++ k → store w' = store w →
  contents w' = contents w ∧ store_ok w' ∧ frames w w'.
Proof.
  intros Hok Hm Hs. pose proof (base_allocated w Hok) as Hb.
  unfold contents, store_ok, slice_ok, frames, Slices.elems in *.
  rewrite Hm, Hs, length_app, lookup_app_l by done.
  split_and!; auto; [lia|]. intros a _ Ha. by rewrite lookup_app_l.
Qed.

Lemma Get_spec id w :
  Store.Get id w
  = match scan id (contents w) with
    | Some (_, p) => (mkResponse 200%Z "Ok" (APatient p), true, w)
    | None => (mkResponse 0%Z "" Nil, false, w)
    end.
Proof. reflexivity. Qed.

Lemma Create_spec p w r w' :
  store_ok w → Store.Create p w = (r, w') →
  r = mkResponse 201%Z "Created" (APatient (setID p (nextID (store w))))
  ∧ contents w' = contents w ++ [setID p (nextID (store w))]
  ∧ nextID (store w') = wrap64 (nextID (store w) + 1)
  ∧ store_ok w' ∧ frames w w'.
Proof.
  intros Hok. unfold Store.Create.
  destruct (Slices.append _ _ _) as [m u] eqn:E. intros [= <- <-].
  apply append_spec in E as (He & Hs & Hl & Hf & Hb); [|done].
  unfold contents, store_ok, frames. simpl. split_and!; auto.
  destruct Hb as [->| ->]; auto.
Qed.

Lemma Update_spec id upd w i p :
  store_ok w → scan id (contents w) = Some (i, p) →
  ∃ w', Store.Update id upd w
        = (mkResponse 200%Z "Ok" (APatient (merge p upd)), true, w')
    ∧ contents w' = <[i:=merge p upd]> (contents w)
    ∧ store w' = store w
    ∧ store_ok w' ∧ frames w w'.
Proof.
  intros Hok Hscan. unfold Store.Update. fold (contents w). rewrite Hscan.
  apply scan_Some in Hscan as (Hp & _ & _).
  set (u := users (store w)).
  assert (Hi : i < length (contents w)) by (by eapply lookup_lt_Some).
  set (p1 := applied setFullname (Fullname upd) p).
  set (p2 := applied setSex (Sex upd) p1).
  set (p3 := applied setBirthdate (Birthdate upd) p2).
  set (p4 := applied setAddress (Address upd) p3).
  pose proof (assign_spec setFullname (Fullname upd) u i (mem w) p Hok Hp)
    as (E1 & O1 & L1 & F1).
  set (m1 := Store.assign setFullname _ _ _ _) in *.
  fold (contents w) in E1. fold p1 in E1.
  assert (P1 : Slices.elems m1 u !! i = Some p1).
  { rewrite E1. by apply list_lookup_insert_eq. }
  pose proof (assign_spec setSex (Sex upd) u i m1 p1 O1 P1)
    as (E2 & O2 & L2 & F2).
  set (m2 := Store.assign setSex _ _ _ _) in *. fold p2 in E2.
  assert (P2 : Slices.elems m2 u !! i = Some p2).
  { rewrite E2. apply list_lookup_insert_eq. by rewrite E1, length_insert. }
  pose proof (assign_spec setBirthdate (Birthdate upd) u i m2 p2 O2 P2)
    as (E3 & O3 & L3 & F3).
  set (m3 := Store.assign setBirthdate _ _ _ _) in *. fold p3 in E3.
  assert (P3 : Slices.elems m3 u !! i = Some p3).
  { rewrite E3. apply list_lookup_insert_eq.
    by rewrite E2, E1, !length_insert. }
  pose proof (assign_spec setAddress (Address upd) u i m3 p3 O3 P3)
    as (E4 & O4 & L4 & F4).
  set (m4 := Store.assign setAddress _ _ _ _) in *. fold p4 in E4.
  assert (Hfin : p4 = merge p upd).
  { unfold p4, p3, p2, p1, applied, merge, pick.
    destruct p as [pid pf ps pb pa]. simpl.
    by destruct (String.eqb (Fullname upd) ""), (String.eqb (Sex upd) ""),
         (String.eqb (Birthdate upd) ""), (String.eqb (Address upd) ""). }
  rewrite Hfin in E4.
  assert (E : Slices.elems m4 u = <[i:=merge p upd]> (contents w)).
  { rewrite E4, E3, E2, E1. by rewrite !list_insert_insert_eq. }
  eexists. split.
  { do 2 f_equal. f_equal. unfold Slices.index. rewrite E.
    by rewrite list_lookup_insert_eq. }
  unfold contents, store_ok, frames. simpl. split_and!; auto.
  - rewrite L4, L3, L2, L1. lia.
  - intros a Ha _. by rewrite F4, F3, F2, F1.
Qed.

Lemma Update_missing id upd w :
  scan id (contents w) = None →
  Store.Update id upd w = (mkResponse 0%Z "" Nil, false, w).
Proof. intros E. unfold Store.Update. fold (contents w). by rewrite E. Qed.

Lemma Delete_missing id w :
  scan id (contents w) = None → Store.Delete id w = (false, w).
Proof. intros E. unfold Store.Delete. fold (contents w). by rewrite E. Qed.

Lemma Delete_spec id w i p :
  store_ok w → scan id (contents w) = Some (i, p) →
  ∃ w', Store.Delete id w = (true, w')
    ∧ contents w' = take i (contents w) ++ drop (S i) (contents w)
    ∧ nextID (store w') = nextID (store w)
    ∧ store_ok w' ∧ frames w w'.
Proof.
  intros Hok Hscan. unfold Store.Delete. fold (contents w). rewrite Hscan.
  apply scan_Some in Hscan as (Hp & _ & _).
  assert (Hi : i < len (users (store w))).
  { rewrite <- (elems_length (mem w) _ Hok). by eapply lookup_lt_Some. }
  destruct (Slices.append _ _ _) as [m u] eqn:E.
  eexists. split; [reflexivity|].
  unfold store_ok, slice_ok in Hok.
  destruct (mem w !! base (users (store w))) as [arr|] eqn:Ea; [|done].
  destruct Hok as [Hc Hl].
  apply append_spec in E as (He & Hs & Hlen & Hf & Hb).
  2:{ unfold slice_ok, Slices.sliceTo. simpl. rewrite Ea. lia. }
  unfold contents, store_ok, frames. simpl in *. split_and!; auto.
  - rewrite He, (elems_at _ (Slices.sliceTo _ _) _ Ea),
      (elems_at _ (Slices.sliceFrom _ _) _ Ea), (elems_at _ _ _ Ea). simpl.
    rewrite take_take, Nat.min_l by lia. f_equal.
    rewrite <- drop_drop, take_drop_commute.
    replace (i + 1) with (S i) by lia. do 2 f_equal. lia.
  - destruct Hb as [->| ->]; auto.
Qed.

Lemma NewStore_ok : store_ok NewStore.
Proof. unfold store_ok, slice_ok. simpl. lia. Qed.

Lemma exec_ok o w r w' :
  store_ok w → exec o w = (r, w') → store_ok w' ∧ frames w w'.
Proof.
  intros Hok. destruct o as [|id|p|id upd|id]; unfold exec.
  - destruct (Store.List w) as [r0 w0] eqn:E. intros [= <- <-].
    destruct (List_spec _ _ _ Hok E) as (out & _ & _ & Hm & _ & Hs).
    destruct (alloc_keeps _ _ _ Hok Hm Hs) as (_ & ? & ?); auto.
  - rewrite Get_spec.
    destruct (scan id (contents w)) as [[i p]|]; simpl; intros [= <- <-];
      auto using frames_refl.
  - destruct (Store.Create p w) as [r0 w0] eqn:E. intros [= <- <-].
    destruct (Create_spec _ _ _ _ Hok E) as (_ & _ & _ & ? & ?); auto.
  - destruct (scan id (contents w)) as [[i p]|] eqn:E.
    + destruct (Update_spec id upd w i p Hok E) as (w0 & -> & _ & _ & ? & ?).
      intros [= <- <-]; auto.
    + rewrite Update_missing by done. intros [= <- <-].
      auto using frames_refl.
  - destruct (scan id (contents w)) as [[i p]|] eqn:E.
    + destruct (Delete_spec id w i p Hok E) as (w0 & -> & _ & _ & ? & ?).
      intros [= <- <-]; auto.
    + rewrite Delete_missing by done. intros [= <- <-].
      auto using frames_refl.
Qed.

Lemma run_ok ops : ∀ w rs w',
  store_ok w → run ops w = (rs, w') → store_ok w'.
Proof.
  induction ops as [|o ops IH]; simpl; intros w rs w' Hok.
  - by intros [= <- <-].
  - destruct (exec o w) as [r w1] eqn:E1.
    destruct (run ops w1) as [rs1 w2] eqn:E2. intros [= <- <-].
    apply exec_ok in E1 as [? _]; eauto.
Qed.

(** A detached slice keeps its elements, and stays detached, across a
    framed step. *)
Lemma frames_detached w w' s :
  frames w w' → detached w s →
  detached w' s ∧ Slices.elems (mem w') s = Slices.elems (mem w) s.
Proof.
  intros (Hl & Hf & Hb) [Hlt Hne]. unfold detached, Slices.elems.
  rewrite (Hf _ Hne Hlt). split_and!; auto; [lia|].
  destruct Hb as [->|?]; [done|lia].
Qed.

Lemma run_detached s ops : ∀ w rs w',
  store_ok w → detached w s → run ops w = (rs, w') →
  detached w' s ∧ Slices.elems (mem w') s = Slices.elems (mem w) s.
Proof.
  induction ops as [|o ops IH]; simpl; intros w rs w' Hok Hd.
  - by intros [= <- <-].
  - destruct (exec o w) as [r w1] eqn:E1.
    destruct (run ops w1) as [rs1 w2] eqn:E2. intros [= <- <-].
    apply exec_ok in E1 as [Hok1 Hfr]; [|done].
    destruct (frames_detached _ _ _ Hfr Hd) as [Hd1 He1].
    destruct (IH _ _ _ Hok1 Hd1 E2) as [Hd2 He2].
    split; [done|]. by rewrite He2.
Qed.

End StoreFacts.

(* ===================================================================== *)
(** ** Id assignment *)
(* ===================================================================== *)

Section IdFacts.
Context `{SliceGrowth}.

Lemma wrap64_small z : - 2 ^ 63 ≤ z < 2 ^ 63 → wrap64 z = z.
Proof. intros Hz. unfold wrap64. rewrite Z.mod_small; lia. Qed.

Lemma wrap64_succ n : wrap64 (wrap64 n + 1) = wrap64 (n + 1).
Proof.
  unfold wrap64. f_equal.
  replace ((n + 2 ^ 63) mod 2 ^ 64 - 2 ^ 63 + 1 + 2 ^ 63)
    with ((n + 2 ^ 63) mod 2 ^ 64 + 1) by lia.
  rewrite Zplus_mod_idemp_l. f_equal. lia.
Qed.

(** Only [Create] moves the counter, and it hands out its old value. *)
Lemma exec_nextID o w r w' :
  exec o w = (r, w') →
  nextID (store w')
  = (if is_create o then wrap64 (nextID (store w) + 1) else nextID (store w))
  ∧ created_id r = (if is_create o then Some (nextID (store w)) else None).
Proof.
  destruct o as [|id|p|id upd|id]; unfold exec.
  - unfold Store.List, Slices.make, Slices.copy. by intros [= <- <-].
  - rewrite Get_spec.
    by destruct (scan id (contents w)) as [[i p]|]; intros [= <- <-].
  - unfold Store.Create. destruct (Slices.append _ _ _) as [m u].
    by intros [= <- <-].
  - unfold Store.Update.
    by destruct (scan id _) as [[i p]|]; intros [= <- <-].
  - unfold Store.Delete.
    destruct (scan id _) as [[i p]|]; [|by intros [= <- <-]].
    destruct (Slices.append _ _ _) as [m u]. by intros [= <- <-].
Qed.

Lemma created_ids_cons r rs :
  created_ids (r :: rs)
  = match created_id r with
    | Some z => z :: created_ids rs
    | None => created_ids rs
    end.
Proof. reflexivity. Qed.

Lemma creates_cons o ops :
  creates (o :: ops) = if is_create o then S (creates ops) else creates ops.
Proof. simpl. by destruct (is_create o). Qed.

Lemma run_created_ids ops : ∀ w rs w' n0,
  nextID (store w) = wrap64 n0 →
  run ops w = (rs, w') →
  created_ids rs = wrap64 <$> seqZ n0 (Z.of_nat (creates ops))
  ∧ nextID (store w') = wrap64 (n0 + Z.of_nat (creates ops)).
Proof.
  induction ops as [|o ops IH]; intros w rs w' n0 Hn.
  - simpl. intros [= <- <-]. simpl. by rewrite Z.add_0_r.
  - simpl run. destruct (exec o w) as [r w1] eqn:E1.
    destruct (run ops w1) as [rs1 w2] eqn:E2. intros [= <- <-].
    apply exec_nextID in E1 as [Hnext Hid].
    rewrite created_ids_cons, creates_cons, Hid.
    destruct (is_create o).
    + rewrite Hn, wrap64_succ in Hnext.
      destruct (IH _ _ _ _ Hnext E2) as [IH1 IH2].
      rewrite IH1, IH2. rewrite (seqZ_cons n0) by lia. rewrite fmap_cons.
      replace (Z.pred (Z.of_nat (S (creates ops))))
        with (Z.of_nat (creates ops)) by lia.
      replace (Z.succ n0) with (n0 + 1) by lia.
      split; [by rewrite Hn|]. f_equal. lia.
    + rewrite Hn in Hnext. by destruct (IH _ _ _ _ Hnext E2) as [IH1 IH2].
Qed.

End IdFacts.

(* ===================================================================== *)
(** ** Facts about the HTTP helpers *)
(* ===================================================================== *)

Section HTTPFacts.

Lemma writeJSON_fresh m w code v :
  sent w = None → writeJSON m w code v = replied w code (Encode m v).
Proof.
  intros Hs. unfold writeJSON, replied, HTTP.Write, HTTP.WriteHeader.
  simpl. rewrite Hs. simpl. reflexivity.
Qed.

Lemma writeError_400 m w msg :
  sent w = None →
  writeError m w (newResponseError HTTP.StatusBadRequest msg)
  = replied w 400 (WError 400 "Bad Request" msg).
Proof. intros Hs. unfold writeError. simpl. by rewrite writeJSON_fresh. Qed.

Lemma ParseInt_empty : GoLib.ParseInt "" = None.
Proof. reflexivity. Qed.

Lemma eqb_false_ne (a b : string) : a ≠ b → String.eqb a b = false.
Proof. intros. by apply String.eqb_neq. Qed.

Lemma blank_true s : blank s = true ↔ GoLib.TrimSpace s = "".
Proof. unfold blank. apply String.eqb_eq. Qed.

Lemma blank_false s : blank s = false ↔ GoLib.TrimSpace s ≠ "".
Proof. unfold blank. apply String.eqb_neq. Qed.

End HTTPFacts.

(* ===================================================================== *)
(** ** The states a fresh store can reach *)
(* ===================================================================== *)

Section Reachable.
Context `{SliceGrowth}.

Lemma merge_ID old upd : ID (merge old upd) = ID old.
Proof. reflexivity. Qed.

Lemma exec_ids_fresh o w r w' c :
  store_ok w → ids_fresh w c → 0 ≤ c → c + bump o < 2 ^ 63 →
  exec o w = (r, w') → ids_fresh w' (c + bump o).
Proof.
  intros Hok (Hn & Hall & Hnd) Hc Hlt. unfold ids_fresh, bump in *.
  destruct o as [|id|p|id upd|id]; unfold exec; simpl is_create in *;
    rewrite ?Z.add_0_r in *.
  - destruct (Store.List w) as [r0 w0] eqn:E. intros [= <- <-].
    destruct (List_spec _ _ _ Hok E) as (out & _ & _ & Hm & _ & Hs).
    destruct (alloc_keeps _ _ _ Hok Hm Hs) as (-> & _ & _).
    by rewrite Hs.
  - rewrite Get_spec.
    by destruct (scan id (contents w)) as [[i p]|]; simpl; intros [= <- <-].
  - destruct (Store.Create p w) as [r0 w0] eqn:E. intros [= <- <-].
    destruct (Create_spec _ _ _ _ Hok E) as (_ & -> & -> & _ & _).
    rewrite Hn, wrap64_succ.
    rewrite (wrap64_small (1 + c)) by lia. split_and!.
    + f_equal. lia.
    + apply Forall_app. split.
      * eapply Forall_impl; [exact Hall|]. simpl. intros; lia.
      * apply Forall_singleton. simpl. lia.
    + rewrite fmap_app. apply NoDup_app. split_and!; [done| |].
      * intros x Hx. simpl. rewrite list_elem_of_singleton. intros ->.
        apply list_elem_of_fmap in Hx as (q & Hq1 & Hq2).
        rewrite Forall_forall in Hall. specialize (Hall q Hq2). lia.
      * simpl. apply NoDup_singleton.
  - destruct (scan id (contents w)) as [[i p]|] eqn:E.
    + destruct (Update_spec id upd w i p Hok E) as (w0 & -> & Hcw & Hs & _).
      intros [= <- <-]. apply scan_Some in E as (Hi & _ & _).
      rewrite Hcw, Hs. split_and!; [done| |].
      * apply Forall_insert; [done|]. rewrite merge_ID.
        rewrite Forall_forall in Hall. apply Hall.
        apply list_elem_of_lookup. eauto.
      * rewrite list_fmap_insert, merge_ID.
        rewrite list_insert_id; [done|]. by rewrite list_lookup_fmap, Hi.
    + rewrite Update_missing by done. by intros [= <- <-].
  - destruct (scan id (contents w)) as [[i p]|] eqn:E.
    + destruct (Delete_spec id w i p Hok E) as (w0 & -> & Hcw & Hs & _).
      intros [= <- <-]. apply scan_Some in E as (Hi & _ & _).
      rewrite Hcw, Hs. split_and!; [done| |].
      * apply Forall_app. split; [by apply Forall_take|by apply Forall_drop].
      * rewrite <- (take_drop_middle (contents w) i p Hi) in Hnd.
        rewrite fmap_app, fmap_cons in Hnd. rewrite fmap_app.
        apply NoDup_app in Hnd as (H1 & H2 & H3).
        apply NoDup_cons in H3 as [_ H3].
        apply NoDup_app. split_and!; [done| |done].
        intros x Hx Hx'. apply (H2 x Hx). by right.
    + rewrite Delete_missing by done. by intros [= <- <-].
Qed.

Lemma run_ids_fresh ops : ∀ w rs w' c,
  store_ok w → ids_fresh w c → 0 ≤ c → c + Z.of_nat (creates ops) < 2 ^ 63 →
  run ops w = (rs, w') →
  store_ok w' ∧ ids_fresh w' (c + Z.of_nat (creates ops)).
Proof.
  induction ops as [|o ops IH]; intros w rs w' c Hok Hf Hc Hlt.
  - simpl. intros [= <- <-]. by rewrite Z.add_0_r.
  - simpl run. destruct (exec o w) as [r w1] eqn:E1.
    destruct (run ops w1) as [rs1 w2] eqn:E2. intros [= <- <-].
    assert (Hb : Z.of_nat (creates (o :: ops))
                 = bump o + Z.of_nat (creates ops)).
    { rewrite creates_cons. unfold bump. destruct (is_create o); lia. }
    rewrite Hb in *.
    assert (0 ≤ bump o) by (unfold bump; destruct (is_create o); lia).
    pose proof (exec_ids_fresh o w r w1 c Hok Hf Hc ltac:(lia) E1) as Hf1.
    apply exec_ok in E1 as [Hok1 _]; [|done].
    destruct (IH w1 rs1 w2 (c + bump o) Hok1 Hf1 ltac:(lia) ltac:(lia) E2)
      as [Hok2 Hf2].
    split; [done|]. by rewrite Z.add_assoc.
Qed.

(** Every state a fresh store reaches, with fewer than 2^63 creations, is
    well formed and holds pairwise distinct ids. *)
Lemma reachable_ok ops :
  Z.of_nat (creates ops) < 2 ^ 63 →
  store_ok (run ops NewStore).2 ∧ ids_unique (run ops NewStore).2.
Proof.
  intros Hlt. destruct (run ops NewStore) as [rs w'] eqn:E. simpl.
  assert (Hf : ids_fresh NewStore 0).
  { unfold ids_fresh. split_and!; [done|apply Forall_nil_2|apply NoDup_nil_2]. }
  destruct (run_ids_fresh ops _ _ _ 0 NewStore_ok Hf ltac:(lia) ltac:(lia) E)
    as [Hok (_ & _ & Hnd)].
  by split.
Qed.

End Reachable.

(* ===================================================================== *)
(** ** The store: Update, Create, Delete, List *)
(* ===================================================================== *)

Lemma unique_index (l : list Patient) i j p q :
  NoDup (ID <$> l) → l !! i = Some p → l !! j = Some q → ID p = ID q → i = j.
Proof.
  intros Hnd Hi Hj Hpq.
  apply (NoDup_lookup (ID <$> l) i j (ID p)); [done| |].
  - by rewrite list_lookup_fmap, Hi.
  - by rewrite list_lookup_fmap, Hj, Hpq.
Qed.

Lemma scan_unique id (l : list Patient) p :
  NoDup (ID <$> l) → p ∈ l → ID p = id →
  ∃ i, scan id l = Some (i, p) ∧ l !! i = Some p.
Proof.
  intros Hnd Hin Hid.
  destruct (scan_found id l p Hin Hid) as (i & q & Hs).
  pose proof (scan_Some _ _ _ _ Hs) as (Hq & Hqid & _).
  apply list_elem_of_lookup in Hin as [j Hj].
  assert (i = j) by (eapply unique_index; eauto; congruence). subst j.
  assert (q = p) by congruence. subst q. eauto.
Qed.

(** C1 (as amended).  For every stored patient [old] whose id matches,
    [Store.Update] returns found = true with the updated record, which
    replaces [old] at its place in the store; each of fullname, sex,
    birthdate and address is overwritten with the input's field exactly
    when that field is not the empty string, and keeps its stored value
    when it is the empty string.  The input is compared as it is, without
    trimming.  The id is never changed. *)
Theorem C1_update_overwrites_nonempty
    (id : Z) (upd old : Patient) (w : World)
    (Hok : store_ok w) (Huniq : ids_unique w)
    (Hin : old ∈ contents w) (Hid : ID old = id) :
  ∃ (i : nat) (new : Patient) (w' : World),
    Store.Update id upd w = (mkResponse 200 "Ok" (APatient new), true, w')
    ∧ contents w !! i = Some old
    ∧ contents w' = <[i:=new]> (contents w)
    ∧ ID new = ID old
    ∧ Fullname new
      = (if String.eqb (Fullname upd) "" then Fullname old else Fullname upd)
    ∧ Sex new = (if String.eqb (Sex upd) "" then Sex old else Sex upd)
    ∧ Birthdate new
      = (if String.eqb (Birthdate upd) "" then Birthdate old
         else Birthdate upd)
    ∧ Address new
      = (if String.eqb (Address upd) "" then Address old else Address upd).
Proof.
  destruct (scan_unique id (contents w) old Huniq Hin Hid) as (i & Hs & Hi).
  destruct (Update_spec id upd w i old Hok Hs) as (w' & HU & Hc & _).
  exists i, (merge old upd), w'. split_and!; auto.
Qed.

(** C2.  On a freshly constructed store, whatever other calls (Delete,
    Update, Get, List) are interleaved, the ids handed out by the Create
    calls of a run are 1, 2, ..., N in call order, hence positive and
    pairwise distinct; N, the number of Create calls, is within the range
    of the int64 counter.  Create ignores the id of its argument. *)
Theorem C2_create_ids_sequential `{SliceGrowth} (ops : list Op)
    (Hrange : Z.of_nat (creates ops) < 2 ^ 63) :
  created_ids (run ops NewStore).1 = seqZ 1 (Z.of_nat (creates ops))
  ∧ Forall (λ i, 0 < i) (created_ids (run ops NewStore).1)
  ∧ NoDup (created_ids (run ops NewStore).1)
  ∧ (∀ (p : Patient) (x : Z) (w : World),
       Store.Create (setID p x) w = Store.Create p w).
Proof.
  destruct (run ops NewStore) as [rs w'] eqn:E.
  assert (H1 : nextID (store NewStore) = wrap64 1) by reflexivity.
  destruct (run_created_ids ops _ _ _ _ H1 E) as [Hids _]. simpl.
  assert (Heq : created_ids rs = seqZ 1 (Z.of_nat (creates ops))).
  { rewrite Hids. rewrite <- (list_fmap_id (seqZ 1 _)) at 2.
    apply Forall_fmap_ext, Forall_seqZ. intros j Hj.
    unfold id. apply wrap64_small. lia. }
  rewrite Heq. split_and!; auto.
  - apply Forall_seqZ. intros; lia.
  - apply NoDup_seqZ.
Qed.

(** C5.  In a store whose ids are pairwise distinct: if some record has
    the id, [Store.Delete] returns true and removes exactly that record,
    the others keeping their order, and a [Get] of the id afterwards
    returns found = false; if no record has the id, [Delete] returns false
    and leaves the state as it is. *)
Theorem C5_delete_removes_one `{SliceGrowth} (id : Z) (w : World)
    (Hok : store_ok w) (Huniq : ids_unique w) :
  ((∃ p, p ∈ contents w ∧ ID p = id) →
     ∃ (l1 l2 : list Patient) (p : Patient),
       contents w = l1 ++ p :: l2 ∧ ID p = id
       ∧ (Store.Delete id w).1 = true
       ∧ contents (Store.Delete id w).2 = l1 ++ l2
       ∧ (Store.Get id (Store.Delete id w).2).1.2 = false)
  ∧ ((∀ p, p ∈ contents w → ID p ≠ id) → Store.Delete id w = (false, w)).
Proof.
  split.
  - intros (p & Hin & Hid).
    destruct (scan_unique id (contents w) p Huniq Hin Hid) as (i & Hs & Hi).
    destruct (Delete_spec id w i p Hok Hs) as (w' & HD & Hc & _).
    exists (take i (contents w)), (drop (S i) (contents w)), p.
    rewrite HD. simpl. split_and!; auto.
    + symmetry. by apply take_drop_middle.
    + rewrite Get_spec, Hc.
      assert (Hnone : scan id (take i (contents w) ++ drop (S i) (contents w))
                      = None).
      { unfold scan. apply list_find_None, Forall_forall. intros q Hq Hqid.
        unfold ids_unique in Huniq.
        rewrite <- (take_drop_middle (contents w) i p Hi) in Huniq.
        rewrite fmap_app, fmap_cons in Huniq.
        apply NoDup_app in Huniq as (_ & Hl & Hr).
        apply NoDup_cons in Hr as [Hr _].
        apply elem_of_app in Hq as [Hq|Hq].
        - apply (Hl (ID q)); [by apply list_elem_of_fmap_2|].
          rewrite Hqid, <- Hid. by left.
        - apply Hr. rewrite Hid, <- Hqid. by apply list_elem_of_fmap_2. }
      by rewrite Hnone.
  - intros Hno. apply Delete_missing.
    unfold scan. apply list_find_None, Forall_forall. auto.
Qed.

(** C6.  For every store state, [Store.List] returns the envelope with
    code 200 and status "Ok" whose data is a slice holding all current
    patients in store order; the slice lives in a backing array of its
    own, not the store's; the store is left as it was; and after any run
    of further store calls (Create, Update, Delete, Get, List) the slice
    returned earlier still holds the same patients. *)
Theorem C6_list_snapshot_isolated `{SliceGrowth} (w : World)
    (Hok : store_ok w) :
  ∃ out : Slice,
    (Store.List w).1 = mkResponse 200 "Ok" (ASlice out)
    ∧ Slices.elems (mem (Store.List w).2) out = contents w
    ∧ store (Store.List w).2 = store w
    ∧ contents (Store.List w).2 = contents w
    ∧ base out ≠ base (users (store w))
    ∧ ∀ ops : list Op,
        Slices.elems (mem (run ops (Store.List w).2).2) out = contents w.
Proof.
  destruct (Store.List w) as [r w1] eqn:E.
  destruct (List_spec _ _ _ Hok E) as (out & -> & Hb & Hm & He & Hs).
  destruct (alloc_keeps _ _ _ Hok Hm Hs) as (Hc & Hok1 & _).
  pose proof (base_allocated w Hok) as Hlt.
  exists out. simpl. split_and!; auto.
  - rewrite Hb. lia.
  - intros ops. destruct (run ops w1) as [rs w2] eqn:E2. simpl.
    assert (Hd : detached w1 out).
    { unfold detached. rewrite Hm, Hs, Hb, length_app. simpl. lia. }
    destruct (run_detached out ops _ _ _ Hok1 Hd E2) as [_ Hk].
    by rewrite Hk.
Qed.

(* ===================================================================== *)
(** ** The handlers *)
(* ===================================================================== *)

Lemma patientHandler_bad_id `{SliceGrowth} `{JSONDecoder}
    (w : ResponseWriter) (r : Request) (σ : World) :
  sent w = None →
  GoLib.ParseInt (idSegment (Path r)) = None →
  patientHandler w r σ
  = (replied w 400 (WError 400 "Bad Request" "invalid id"), σ).
Proof.
  intros Hw Hnone. unfold patientHandler. rewrite Hnone.
  by rewrite writeError_400.
Qed.

(** C3.  For a request to the item route with any method, if the id
    segment of the path (prefix and one trailing slash stripped) is empty
    or does not parse as a base-10 64-bit integer, the reply is 400 with
    the error envelope "invalid id"; the state is passed on untouched and
    the reply is the same whatever the store holds, so it is never 404. *)
Theorem C3_malformed_id_is_400 `{SliceGrowth} `{JSONDecoder}
    (w : ResponseWriter) (r : Request) (σ : World)
    (Hw : sent w = None)
    (Hbad : idSegment (Path r) = ""
            ∨ GoLib.ParseInt (idSegment (Path r)) = None) :
  patientHandler w r σ
  = (replied w 400 (WError 400 "Bad Request" "invalid id"), σ)
  ∧ (∀ σ' : World, (patientHandler w r σ').1 = (patientHandler w r σ).1)
  ∧ (fst <$> sent (patientHandler w r σ).1) = Some 400.
Proof.
  assert (Hnone : GoLib.ParseInt (idSegment (Path r)) = None).
  { destruct Hbad as [->|?]; [apply ParseInt_empty|done]. }
  assert (E : ∀ σ0, patientHandler w r σ0
              = (replied w 400 (WError 400 "Bad Request" "invalid id"), σ0)).
  { intros σ0. by apply patientHandler_bad_id. }
  split_and!.
  - apply E.
  - intros σ'. by rewrite !E.
  - by rewrite E.
Qed.

(** C4.  For a POST on the collection route: a body that does not decode
    gets 400 "invalid JSON body"; a decoded body with one of fullname,
    sex, birthdate, address empty after trimming gets 400 "fullname, sex,
    birthdate and address are required"; in both cases the state is left
    as it was (Create is not called).  Otherwise the reply is 201 with the
    envelope of Create (code 201, status "Created") carrying the record
    with the id assigned to it, which is the record appended to the
    store. *)
Theorem C4_post_validation `{SliceGrowth} `{JSONDecoder}
    (w : ResponseWriter) (r : Request) (σ : World)
    (Hm : Method r = "POST") (Hw : sent w = None) (Hok : store_ok σ) :
  (decodePatient (Body r) = None →
     patientsHandler w r σ
     = (replied w 400 (WError 400 "Bad Request" "invalid JSON body"), σ))
  ∧ (∀ p : Patient, decodePatient (Body r) = Some p →
       GoLib.TrimSpace (Fullname p) = "" ∨ GoLib.TrimSpace (Sex p) = ""
       ∨ GoLib.TrimSpace (Birthdate p) = ""
       ∨ GoLib.TrimSpace (Address p) = "" →
       patientsHandler w r σ
       = (replied w 400
            (WError 400 "Bad Request"
               "fullname, sex, birthdate and address are required"), σ))
  ∧ (∀ p : Patient, decodePatient (Body r) = Some p →
       GoLib.TrimSpace (Fullname p) ≠ "" → GoLib.TrimSpace (Sex p) ≠ "" →
       GoLib.TrimSpace (Birthdate p) ≠ "" →
       GoLib.TrimSpace (Address p) ≠ "" →
       let stored := setID p (nextID (store σ)) in
       (patientsHandler w r σ).1
       = replied w 201 (WResponse 201 "Created" (PObject stored))
       ∧ (patientsHandler w r σ).2 = (Store.Create p σ).2
       ∧ contents (patientsHandler w r σ).2 = contents σ ++ [stored]).
Proof.
  split_and!.
  - intros Hd. unfold patientsHandler. rewrite Hm. simpl. rewrite Hd.
    by rewrite writeError_400.
  - intros p Hd Hblank. unfold patientsHandler. rewrite Hm. simpl.
    rewrite Hd.
    assert (Hb : blank (Fullname p) || blank (Sex p) || blank (Birthdate p)
                 || blank (Address p) = true).
    { rewrite !orb_true_iff, !blank_true. tauto. }
    rewrite Hb. by rewrite writeError_400.
  - intros p Hd H1 H2 H3 H4 stored. unfold patientsHandler. rewrite Hm.
    simpl. rewrite Hd.
    apply blank_false in H1, H2, H3, H4. rewrite H1, H2, H3, H4. simpl.
    destruct (Store.Create p σ) as [created σ'] eqn:E.
    destruct (Create_spec _ _ _ _ Hok E) as (-> & Hc & _).
    simpl. split_and!; auto. by rewrite writeJSON_fresh.
Qed.

(** C7.  For a PUT on the item route whose body decodes to a record with
    all four of fullname, sex, birthdate, address empty after trimming:
    the reply is 400 and the state is left exactly as it was, whatever the
    store holds (Update is not called); with an id segment that parses,
    the error message is "at least one field required to update". *)
Theorem C7_put_without_fields `{SliceGrowth} `{JSONDecoder}
    (w : ResponseWriter) (r : Request) (σ : World) (upd : Patient)
    (Hm : Method r = "PUT") (Hw : sent w = None)
    (Hd : decodePatient (Body r) = Some upd)
    (Hf : GoLib.TrimSpace (Fullname upd) = "")
    (Hs : GoLib.TrimSpace (Sex upd) = "")
    (Hb : GoLib.TrimSpace (Birthdate upd) = "")
    (Ha : GoLib.TrimSpace (Address upd) = "") :
  (∀ id : Z, GoLib.ParseInt (idSegment (Path r)) = Some id →
     patientHandler w r σ
     = (replied w 400
          (WError 400 "Bad Request" "at least one field required to update"),
        σ))
  ∧ (∃ msg : string,
       patientHandler w r σ = (replied w 400 (WError 400 "Bad Request" msg), σ))
  ∧ (∀ σ' : World, (patientHandler w r σ').1 = (patientHandler w r σ).1).
Proof.
  assert (E : ∀ σ0 id, GoLib.ParseInt (idSegment (Path r)) = Some id →
            patientHandler w r σ0
            = (replied w 400
                 (WError 400 "Bad Request"
                    "at least one field required to update"), σ0)).
  { intros σ0 id Hid. unfold patientHandler. rewrite Hid.
    destruct (String.eqb (idSegment (Path r)) "") eqn:Ee.
    { apply String.eqb_eq in Ee. rewrite Ee, ParseInt_empty in Hid. done. }
    unfold patientMethods. rewrite Hm. simpl. rewrite Hd.
    apply blank_true in Hf, Hs, Hb, Ha. rewrite Hf, Hs, Hb, Ha. simpl.
    by rewrite writeError_400. }
  destruct (GoLib.ParseInt (idSegment (Path r))) as [id|] eqn:Hid.
  - split_and!.
    + intros id' [= <-]. by apply (E σ id).
    + eexists. by apply (E σ id).
    + intros σ'. by rewrite (E σ id), (E σ' id).
  - split_and!; [done| |].
    + eexists. by apply patientHandler_bad_id.
    + intros σ'. by rewrite !patientHandler_bad_id.
Qed.

(** C8 (as amended).  For every code and message, [newResponseError]
    builds the envelope with that code and message whose status label is
    the reason phrase of the code (404 gives "Not Found"), or "Error" when
    the code has none.  [writeError] writes an envelope whose code is zero
    with code 500 in the status line and in the body; the label written is
    the envelope's own when it has one, so an envelope built by
    [newResponseError] for code zero is written with the label "Error",
    and "Internal Server Error" is written only for an envelope with an
    empty label. *)
Theorem C8_error_envelope (code : Z) (msg : string) (m : Mem) :
  newResponseError code msg
  = mkResponseError code
      (if String.eqb (GoLib.StatusText code) "" then "Error"
       else GoLib.StatusText code) msg
  ∧ EStatus (newResponseError 404 msg) = "Not Found"
  ∧ writeError m newResponseWriter (newResponseError 0 msg)
    = replied newResponseWriter 500 (WError 500 "Error" msg)
  ∧ (∀ label : string,
       writeError m newResponseWriter (mkResponseError 0 label msg)
       = replied newResponseWriter 500
           (WError 500
              (if String.eqb label "" then "Internal Server Error" else label)
              msg)).
Proof.
  split_and!; try reflexivity.
  intros label. unfold writeError. simpl.
  destruct (String.eqb label ""); by rewrite writeJSON_fresh.
Qed.

(** C9.  For every request, path and wrapped handler: the middleware sets
    the three cross-origin headers; when the method is OPTIONS it sends
    status 204 with those headers, writes no body, leaves the state alone
    and does not call the wrapped handler; for any other method it hands
    the writer, with the three headers set, to the wrapped handler. *)
Theorem C9_cors_preflight (next : Handler) (w : ResponseWriter) (r : Request)
    (σ : World) (Hw : sent w = None) :
  (Method r = "OPTIONS" →
     corsMiddleware next w r σ
     = (mkResponseWriter (corsHeaders (header w))
          (Some (204, corsHeaders (header w))) (body w), σ))
  ∧ (Method r ≠ "OPTIONS" →
       corsMiddleware next w r σ
       = next (mkResponseWriter (corsHeaders (header w)) None (body w)) r σ)
  ∧ corsHeaders (header w) !! "Access-Control-Allow-Origin" = Some ["*"]
  ∧ corsHeaders (header w) !! "Access-Control-Allow-Methods"
    = Some ["GET, POST, PUT, DELETE, OPTIONS"]
  ∧ corsHeaders (header w) !! "Access-Control-Allow-Headers"
    = Some ["Content-Type, Authorization"].
Proof.
  unfold corsMiddleware, corsHeaders, HTTP.HeaderSet, HTTP.WriteHeader.
  simpl. rewrite Hw. split_and!.
  - intros ->. reflexivity.
  - intros Hne. by rewrite eqb_false_ne.
  - rewrite lookup_insert_ne, lookup_insert_ne by done.
    apply lookup_insert_eq.
  - rewrite lookup_insert_ne by done. apply lookup_insert_eq.
  - apply lookup_insert_eq.
Qed.

(** C10.  For a POST on the collection route whose body decodes to a
    record with all four fields non-empty after trimming, the record
    appended to the store and returned in the reply has the four fields
    exactly as decoded, untrimmed, and the id assigned by the store. *)
Theorem C10_post_stores_untrimmed `{SliceGrowth} `{JSONDecoder}
    (w : ResponseWriter) (r : Request) (σ : World) (p : Patient)
    (Hm : Method r = "POST") (Hok : store_ok σ)
    (Hd : decodePatient (Body r) = Some p)
    (Hf : GoLib.TrimSpace (Fullname p) ≠ "")
    (Hs : GoLib.TrimSpace (Sex p) ≠ "")
    (Hb : GoLib.TrimSpace (Birthdate p) ≠ "")
    (Ha : GoLib.TrimSpace (Address p) ≠ "") :
  ∃ q : Patient,
    contents (patientsHandler w r σ).2 = contents σ ++ [q]
    ∧ last (body (patientsHandler w r σ).1)
      = Some (WResponse 201 "Created" (PObject q))
    ∧ ID q = nextID (store σ)
    ∧ Fullname q = Fullname p ∧ Sex q = Sex p
    ∧ Birthdate q = Birthdate p ∧ Address q = Address p.
Proof.
  exists (setID p (nextID (store σ))).
  unfold patientsHandler. rewrite Hm. simpl. rewrite Hd.
  apply blank_false in Hf, Hs, Hb, Ha. rewrite Hf, Hs, Hb, Ha. simpl.
  destruct (Store.Create p σ) as [created σ'] eqn:E.
  destruct (Create_spec _ _ _ _ Hok E) as (-> & Hc & _).
  simpl. split_and!; auto. apply last_snoc.
Qed.

(* ===================================================================== *)
(** ** The theorems at concrete inputs *)
(* ===================================================================== *)

Lemma seededD_ok : store_ok seededD.
Proof. vm_compute. lia. Qed.

Lemma seededD_unique : ids_unique seededD.
Proof. unfold ids_unique. apply (bool_decide_unpack _). vm_compute. exact I. Qed.

Lemma seededD_contents : contents seededD = [aliceStored; bobStored].
Proof. vm_compute. reflexivity. Qed.

Lemma C1_witness :
  store_ok seededD ∧ ids_unique seededD ∧ aliceStored ∈ contents seededD
  ∧ ∃ (i : nat) (new : Patient) (w' : World),
      Store.Update 1 spacedSex seededD
      = (mkResponse 200 "Ok" (APatient new), true, w')
      ∧ contents w' = <[i:=new]> (contents seededD)
      ∧ Fullname new = "Alice B" ∧ Sex new = " "
      ∧ Birthdate new = "1990-01-01" ∧ Address new = "123 A St".
Proof.
  assert (Hin : aliceStored ∈ contents seededD).
  { rewrite seededD_contents. apply list_elem_of_here. }
  split_and!; [apply seededD_ok | apply seededD_unique | exact Hin |].
  destruct (C1_update_overwrites_nonempty 1 spacedSex aliceStored
              seededD seededD_ok seededD_unique Hin eq_refl)
    as (i & new & w' & HU & Hi & Hc & Hid & Hf & Hs & Hb & Ha).
  exists i, new, w'. split_and!; assumption.
Defined.

(** The claim as first stated fails: a field holding one space is empty
    after trimming, and [Update] overwrites the stored sex with it. *)
Lemma C1_whitespace_field_overwrites :
  GoLib.TrimSpace (Sex spacedSex) = ""
  ∧ Sex <$> contents seededD !! 0%nat = Some "F"
  ∧ Sex <$> contents (Store.Update 1 spacedSex seededD).2 !! 0%nat
    = Some " "
  ∧ ¬ (GoLib.TrimSpace (Sex spacedSex) = "" →
       Sex <$> contents (Store.Update 1 spacedSex seededD).2 !! 0%nat
       = Sex <$> contents seededD !! 0%nat).
Proof.
  split_and!; try (vm_compute; reflexivity).
  intros Hretain. specialize (Hretain ltac:(vm_compute; reflexivity)).
  vm_compute in Hretain. discriminate.
Qed.

Lemma C2_witness :
  Z.of_nat (creates sampleOps) < 2 ^ 63
  ∧ created_ids (@run doubling sampleOps NewStore).1 = [1; 2; 3; 4].
Proof.
  assert (Hrange : Z.of_nat (creates sampleOps) < 2 ^ 63).
  { vm_compute. reflexivity. }
  split; [exact Hrange|].
  apply (proj1 (@C2_create_ids_sequential doubling sampleOps Hrange)).
Defined.

Lemma C3_witness :
  GoLib.ParseInt (idSegment (Path getBadId)) = None
  ∧ @patientHandler doubling sampleDecoder newResponseWriter getBadId seededD
    = (replied newResponseWriter 400 (WError 400 "Bad Request" "invalid id"),
       seededD).
Proof.
  assert (Hbad : GoLib.ParseInt (idSegment (Path getBadId)) = None).
  { vm_compute. reflexivity. }
  split; [exact Hbad|].
  apply (proj1 (@C3_malformed_id_is_400 doubling sampleDecoder
                  newResponseWriter getBadId seededD eq_refl
                  (or_intror Hbad))).
Defined.

Lemma C4_witness :
  store_ok seededD
  ∧ @patientsHandler doubling goDecoder newResponseWriter postNotJSON seededD
    = (replied newResponseWriter 400
         (WError 400 "Bad Request" "invalid JSON body"), seededD)
  ∧ @patientsHandler doubling goDecoder newResponseWriter postBlankName
      seededD
    = (replied newResponseWriter 400
         (WError 400 "Bad Request"
            "fullname, sex, birthdate and address are required"), seededD)
  ∧ (@patientsHandler doubling goDecoder newResponseWriter postCarol
       seededD).1
    = replied newResponseWriter 201
        (WResponse 201 "Created" (PObject (setID carol 3))).
Proof.
  assert (Hne : ∀ s : string, GoLib.TrimSpace s ≠ "" ↔ blank s = false).
  { intros s. symmetry. apply blank_false. }
  split_and!; [apply seededD_ok| | |].
  - destruct (@C4_post_validation doubling goDecoder newResponseWriter
                postNotJSON seededD eq_refl eq_refl seededD_ok)
      as (H1 & _ & _).
    apply H1. vm_compute. reflexivity.
  - destruct (@C4_post_validation doubling goDecoder newResponseWriter
                postBlankName seededD eq_refl eq_refl seededD_ok)
      as (_ & H2 & _).
    apply (H2 (mkPatient 0 "  " "F" "2000-01-01" "x")).
    + vm_compute. reflexivity.
    + left. vm_compute. reflexivity.
  - destruct (@C4_post_validation doubling goDecoder newResponseWriter
                postCarol seededD eq_refl eq_refl seededD_ok)
      as (_ & _ & H3).
    apply (H3 carol); [vm_compute; reflexivity|..]; apply Hne; reflexivity.
Defined.

(** The claim as first stated fails in both directions.  A body that is
    not valid JSON, a valid object followed by other bytes, is decoded and
    answered with 201; and a body that is valid JSON, with a number for
    the fullname, is answered with 400 and "invalid JSON body". *)
Lemma C4_decoding_is_not_validity :
  (GoJSON.Valid (Body postGarbage) = false
   ∧ (@patientsHandler doubling goDecoder newResponseWriter postGarbage
        seededD).1
     = replied newResponseWriter 201
         (WResponse 201 "Created" (PObject (setID carol 3))))
  ∧ (GoJSON.Valid (Body postWrongType) = true
     ∧ @patientsHandler doubling goDecoder newResponseWriter postWrongType
         seededD
       = (replied newResponseWriter 400
            (WError 400 "Bad Request" "invalid JSON body"), seededD)).
Proof. split; split; vm_compute; reflexivity. Qed.

Lemma C5_witness :
  store_ok seededD ∧ ids_unique seededD
  ∧ ∃ (l1 l2 : list Patient) (p : Patient),
      contents seededD = l1 ++ p :: l2 ∧ ID p = 1
      ∧ (@Store.Delete doubling 1 seededD).1 = true
      ∧ contents (@Store.Delete doubling 1 seededD).2 = l1 ++ l2.
Proof.
  split_and!; [apply seededD_ok | apply seededD_unique |].
  destruct (@C5_delete_removes_one doubling 1 seededD seededD_ok
              seededD_unique) as [Hfound _].
  destruct Hfound as (l1 & l2 & p & H1 & H2 & H3 & H4 & _).
  { exists aliceStored. split; [|reflexivity].
    rewrite seededD_contents. apply list_elem_of_here. }
  exists l1, l2, p. split_and!; assumption.
Defined.

Lemma C6_witness :
  store_ok seededD
  ∧ ∃ out : Slice,
      (Store.List seededD).1 = mkResponse 200 "Ok" (ASlice out)
      ∧ Slices.elems
          (mem (@run doubling sampleOps (Store.List seededD).2).2)
          out
        = contents seededD.
Proof.
  split; [apply seededD_ok|].
  destruct (@C6_list_snapshot_isolated doubling seededD seededD_ok)
    as (out & H1 & _ & _ & _ & _ & H6).
  exists out. split; [exact H1|apply H6].
Defined.

Lemma C7_witness :
  decodePatient (JSONDecoder := sampleDecoder) (Body putEmpty)
  = Some zeroPatient
  ∧ @patientHandler doubling sampleDecoder newResponseWriter putEmpty seededD
    = (replied newResponseWriter 400
         (WError 400 "Bad Request" "at least one field required to update"),
       seededD).
Proof.
  split; [reflexivity|].
  apply (proj1 (@C7_put_without_fields doubling sampleDecoder
                  newResponseWriter putEmpty seededD zeroPatient
                  eq_refl eq_refl eq_refl eq_refl eq_refl eq_refl eq_refl) 1).
  vm_compute. reflexivity.
Defined.

(** The claim as first stated fails: the envelope built for code zero is
    written with code 500 and the label "Error". *)
Lemma C8_zero_code_label_is_Error :
  body (writeError [] newResponseWriter (newResponseError 0 "boom"))
  = [WError 500 "Error" "boom"]
  ∧ body (writeError [] newResponseWriter (newResponseError 0 "boom"))
    ≠ [WError 500 "Internal Server Error" "boom"].
Proof. split; [reflexivity|]. vm_compute. discriminate. Qed.

Lemma C9_witness :
  sent newResponseWriter = None
  ∧ corsMiddleware (@patientHandler doubling sampleDecoder) newResponseWriter
      preflight seededD
    = (mkResponseWriter (corsHeaders ∅) (Some (204, corsHeaders ∅)) [],
       seededD).
Proof.
  split; [reflexivity|].
  apply (proj1 (C9_cors_preflight (@patientHandler doubling sampleDecoder)
                  newResponseWriter preflight seededD eq_refl)).
  reflexivity.
Defined.

Lemma C10_witness :
  store_ok seededD
  ∧ GoLib.TrimSpace (Fullname carol) ≠ Fullname carol
  ∧ ∃ q : Patient,
      contents (@patientsHandler doubling sampleDecoder newResponseWriter
                  postCarol seededD).2
      = contents seededD ++ [q]
      ∧ Fullname q = " Carol ".
Proof.
  split_and!; [apply seededD_ok | vm_compute; discriminate |].
  destruct (@C10_post_stores_untrimmed doubling sampleDecoder
              newResponseWriter postCarol seededD carol eq_refl seededD_ok
              eq_refl)
    as (q & H1 & _ & _ & H4 & _); try (vm_compute; discriminate).
  exists q. split; assumption.
Defined.

(* ===================================================================== *)
(** ** The library functions and the counter at sample inputs *)
(* ===================================================================== *)

Example TrimSpace_inner : GoLib.TrimSpace "  Alice  Example " = "Alice  Example".
Proof. vm_compute. reflexivity. Qed.

Example TrimSpace_keeps_inner_text :
  GoLib.TrimSpace "123 A St" = "123 A St"
  ∧ GoLib.TrimSpace " 123 A St " = "123 A St"
  ∧ GoLib.TrimSpace "x y" = "x y" ∧ GoLib.TrimSpace " t" = "t"
  ∧ GoLib.TrimSpace "t " = "t" ∧ GoLib.TrimSpace "F" = "F".
Proof. vm_compute. auto 10. Qed.

Example TrimSpace_tab_space : GoLib.TrimSpace (String (ascii_of_nat 9) " ") = "".
Proof. vm_compute. reflexivity. Qed.

(** U+00A0 (bytes C2 A0) and U+3000 (bytes E3 80 80) are white space. *)
Example TrimSpace_unicode :
  GoLib.TrimSpace
    (GoLib.string_of_bytes [194; 160; 120; 227; 128; 128]) = "x".
Proof. vm_compute. reflexivity. Qed.

Example ParseInt_negative : GoLib.ParseInt "-42" = Some (-42).
Proof. vm_compute. reflexivity. Qed.

Example ParseInt_range :
  GoLib.ParseInt "9223372036854775807" = Some (2 ^ 63 - 1)
  ∧ GoLib.ParseInt "9223372036854775808" = None
  ∧ GoLib.ParseInt "-9223372036854775808" = Some (- 2 ^ 63).
Proof. vm_compute. auto. Qed.

Example ParseInt_syntax :
  GoLib.ParseInt "abc" = None ∧ GoLib.ParseInt "" = None
  ∧ GoLib.ParseInt "+" = None ∧ GoLib.ParseInt "1_000" = None
  ∧ GoLib.ParseInt " 1" = None.
Proof. vm_compute. auto. Qed.

Example idSegment_samples :
  idSegment "/patients/12/" = "12" ∧ idSegment "/patients/12//" = "12/"
  ∧ idSegment "/patients/" = "" ∧ idSegment "/patients/abc" = "abc".
Proof. vm_compute. auto. Qed.

Example seeded_ids : ID <$> contents seededD = [1; 2].
Proof. vm_compute. reflexivity. Qed.

(** The counter's range: at the largest int64 the increment of [Create]
    wraps to the smallest one. *)
Example nextID_wraps (p : Patient) (m : Mem) (u : Slice) :
  nextID (store (@Store.Create doubling p (mkWorld m (mkStore u (2 ^ 63 - 1)))).2)
  = - 2 ^ 63.
Proof.
  unfold Store.Create. destruct (Slices.append _ _ _) as [m' u']. reflexivity.
Qed.

(* ===================================================================== *)
(** ** Lookups: Get, and Get after the other methods *)
(* ===================================================================== *)

Section Lookups.
Context `{SliceGrowth}.

Lemma lookupID_nil id : lookupID id [] = None.
Proof. reflexivity. Qed.

Lemma lookupID_cons id p l :
  lookupID id (p :: l) = if decide (ID p = id) then Some p else lookupID id l.
Proof.
  unfold lookupID, scan. simpl. case_decide; [done|].
  by destruct (list_find _ l) as [[i q]|].
Qed.

Lemma lookupID_app id l1 l2 :
  lookupID id (l1 ++ l2)
  = match lookupID id l1 with Some p => Some p | None => lookupID id l2 end.
Proof.
  induction l1 as [|p l1 IH]; [done|]. simpl.
  rewrite !lookupID_cons. by case_decide.
Qed.

Lemma lookupID_None id l :
  lookupID id l = None ↔ ∀ p, p ∈ l → ID p ≠ id.
Proof.
  unfold lookupID, scan. rewrite fmap_None, list_find_None, Forall_forall.
  done.
Qed.

Lemma lookupID_Some id l p :
  lookupID id l = Some p → p ∈ l ∧ ID p = id.
Proof.
  unfold lookupID. destruct (scan id l) as [[i q]|] eqn:E; [|done].
  intros [= <-]. apply scan_Some in E as (Hq & Hid & _).
  split; [|done]. apply list_elem_of_lookup. eauto.
Qed.

Lemma Get_lookup id w :
  Store.Get id w = (getResult (lookupID id (contents w)), w).
Proof.
  rewrite Get_spec. unfold lookupID.
  by destruct (scan id (contents w)) as [[i p]|].
Qed.

Lemma lookupID_unique id l p :
  NoDup (ID <$> l) → p ∈ l → ID p = id → lookupID id l = Some p.
Proof.
  intros Hnd Hin Hid.
  destruct (scan_unique id l p Hnd Hin Hid) as (i & Hs & _).
  unfold lookupID. by rewrite Hs.
Qed.

End Lookups.

(** X1.  [Store.Get] never changes the state.  It returns found = true
    exactly when some stored record has the id, and then the envelope is
    200 / "Ok" carrying a stored record with that id (the record itself
    when ids are distinct); otherwise it returns the zero envelope and
    false. *)
Theorem X1_get_finds_stored_record (id : Z) (w : World) :
  (Store.Get id w).2 = w
  ∧ ((Store.Get id w).1.2 = true ↔ ∃ p, p ∈ contents w ∧ ID p = id)
  ∧ ((Store.Get id w).1.2 = true →
       ∃ q, q ∈ contents w ∧ ID q = id
            ∧ (Store.Get id w).1.1 = mkResponse 200 "Ok" (APatient q))
  ∧ (∀ p, ids_unique w → p ∈ contents w → ID p = id →
       (Store.Get id w).1 = (mkResponse 200 "Ok" (APatient p), true))
  ∧ ((Store.Get id w).1.2 = false →
       (Store.Get id w).1.1 = mkResponse 0 "" Nil).
Proof.
  rewrite Get_lookup. simpl.
  destruct (lookupID id (contents w)) as [q|] eqn:E; simpl.
  - pose proof (lookupID_Some _ _ _ E) as [Hin Hid].
    split_and!; try done.
    + split; eauto.
    + eauto.
    + intros p Hu Hp Hpid. rewrite (lookupID_unique id _ p Hu Hp Hpid) in E.
      by injection E as ->.
  - pose proof (proj1 (lookupID_None _ _) E) as Hno.
    split_and!; try done.
    + split; [done|]. intros (p & Hp & Hid). by destruct (Hno p Hp).
    + intros p _ Hp Hid. by destruct (Hno p Hp).
Qed.

(** X2.  [Store.Update] returns found = true exactly when some stored
    record has the id; for an id that no record has it returns the zero
    envelope and false and leaves the state as it was. *)
Theorem X2_update_found_iff_stored (id : Z) (upd : Patient) (w : World) :
  ((Store.Update id upd w).1.2 = true ↔ ∃ p, p ∈ contents w ∧ ID p = id)
  ∧ ((∀ p, p ∈ contents w → ID p ≠ id) →
       Store.Update id upd w = (mkResponse 0 "" Nil, false, w)).
Proof.
  split.
  - unfold Store.Update. fold (contents w).
    destruct (scan id (contents w)) as [[i p]|] eqn:E; simpl.
    + split; [intros _|done]. apply scan_Some in E as (Hp & Hid & _).
      exists p. split; [|done]. apply list_elem_of_lookup. eauto.
    + split; [done|]. intros (p & Hp & Hid).
      apply scan_None in E. rewrite Forall_forall in E.
      by destruct (E p Hp).
  - intros Hno. apply Update_missing.
    unfold scan. apply list_find_None, Forall_forall. auto.
Qed.

(* ===================================================================== *)
(** ** How the store methods compose *)
(* ===================================================================== *)

Section Composition.
Context `{SliceGrowth}.

Lemma scan_insert_same_id id (l : list Patient) i p q :
  scan id l = Some (i, p) → ID q = ID p →
  scan id (<[i:=q]> l) = Some (i, q).
Proof.
  intros Hs Hq. apply scan_Some in Hs as (Hp & Hid & Hbefore).
  unfold scan. apply list_find_Some. split_and!.
  - apply list_lookup_insert_eq. by eapply lookup_lt_Some.
  - congruence.
  - intros j y Hj Hlt. rewrite list_lookup_insert_ne in Hj by lia. eauto.
Qed.

Lemma pick_idem a b : pick (pick a b) b = pick a b.
Proof. unfold pick. by destruct (String.eqb b ""). Qed.

Lemma merge_idem p upd : merge (merge p upd) upd = merge p upd.
Proof. unfold merge. simpl. by rewrite !pick_idem. Qed.

(** Removing the record found for an id leaves no record with that id,
    when ids are distinct. *)
Lemma scan_removed (l : list Patient) i p :
  NoDup (ID <$> l) → l !! i = Some p →
  scan (ID p) (take i l ++ drop (S i) l) = None.
Proof.
  intros Hnd Hi. unfold scan. apply list_find_None, Forall_forall.
  intros q Hq Hqid.
  rewrite <- (take_drop_middle l i p Hi) in Hnd.
  rewrite fmap_app, fmap_cons in Hnd.
  apply NoDup_app in Hnd as (_ & Hl & Hr).
  apply NoDup_cons in Hr as [Hr _].
  apply elem_of_app in Hq as [Hq|Hq].
  - apply (Hl (ID q)); [by apply list_elem_of_fmap_2|].
    rewrite Hqid. by left.
  - apply Hr. rewrite <- Hqid. by apply list_elem_of_fmap_2.
Qed.

Lemma Update_contents id upd w :
  store_ok w →
  store_ok (Store.Update id upd w).2
  ∧ store (Store.Update id upd w).2 = store w
  ∧ contents (Store.Update id upd w).2
    = match scan id (contents w) with
      | Some (i, p) => <[i:=merge p upd]> (contents w)
      | None => contents w
      end.
Proof.
  intros Hok. destruct (scan id (contents w)) as [[i p]|] eqn:E.
  - by destruct (Update_spec id upd w i p Hok E) as (w' & -> & ? & ? & ? & _).
  - by rewrite Update_missing.
Qed.

Lemma Delete_contents id w :
  store_ok w →
  store_ok (Store.Delete id w).2
  ∧ nextID (store (Store.Delete id w).2) = nextID (store w)
  ∧ Store.Delete id w
    = (bool_decide (is_Some (scan id (contents w))), (Store.Delete id w).2)
  ∧ contents (Store.Delete id w).2
    = match scan id (contents w) with
      | Some (i, _) => take i (contents w) ++ drop (S i) (contents w)
      | None => contents w
      end.
Proof.
  intros Hok. destruct (scan id (contents w)) as [[i p]|] eqn:E.
  - by destruct (Delete_spec id w i p Hok E) as (w' & -> & ? & ? & ? & _).
  - by rewrite Delete_missing.
Qed.

End Composition.

(** X3.  [Store.Update] keeps the ids of all records, their number and
    order, and the id counter; a record with another id is left exactly as
    it was. *)
Theorem X3_update_keeps_ids_and_others (id : Z) (upd : Patient) (w : World)
    (Hok : store_ok w) :
  ID <$> contents (Store.Update id upd w).2 = ID <$> contents w
  ∧ length (contents (Store.Update id upd w).2) = length (contents w)
  ∧ nextID (store (Store.Update id upd w).2) = nextID (store w)
  ∧ (∀ (j : nat) (q : Patient), contents w !! j = Some q → ID q ≠ id →
       contents (Store.Update id upd w).2 !! j = Some q).
Proof.
  destruct (Update_contents id upd w Hok) as (_ & Hs & Hc).
  rewrite Hc, Hs. destruct (scan id (contents w)) as [[i p]|] eqn:E.
  - apply scan_Some in E as (Hp & Hid & _). split_and!.
    + rewrite list_fmap_insert, merge_ID.
      apply list_insert_id. by rewrite list_lookup_fmap, Hp.
    + apply length_insert.
    + done.
    + intros j q Hj Hne. rewrite list_lookup_insert_ne; [done|].
      intros ->. congruence.
  - split_and!; auto.
Qed.

(** X4.  Applying the same update a second time changes nothing more: the
    second [Update] returns what the first returned and leaves the stored
    records as the first left them. *)
Theorem X4_update_twice (id : Z) (upd : Patient) (w : World)
    (Hok : store_ok w) :
  (Store.Update id upd (Store.Update id upd w).2).1
  = (Store.Update id upd w).1
  ∧ contents (Store.Update id upd (Store.Update id upd w).2).2
    = contents (Store.Update id upd w).2.
Proof.
  destruct (scan id (contents w)) as [[i p]|] eqn:E.
  - destruct (Update_spec id upd w i p Hok E) as (w1 & E1 & Hc1 & _ & Hok1 & _).
    rewrite E1. simpl.
    assert (E' : scan id (contents w1) = Some (i, merge p upd)).
    { rewrite Hc1. by apply (scan_insert_same_id id _ i p). }
    destruct (Update_spec id upd w1 i _ Hok1 E') as (w2 & E2 & Hc2 & _).
    rewrite E2, merge_idem. simpl. split; [done|].
    rewrite Hc2, merge_idem, Hc1. apply list_insert_insert_eq.
  - rewrite (Update_missing id upd w E). simpl.
    by rewrite (Update_missing id upd w E).
Qed.

(** X5.  In a well-formed store where no record has the counter's value as
    id, a [Get] of the id that [Create] handed out returns the created
    record, and a [Get] of any other id returns what it returned before
    the [Create]. *)
Theorem X5_create_then_get `{SliceGrowth} (p : Patient) (w : World)
    (Hok : store_ok w)
    (Hfresh : ∀ q, q ∈ contents w → ID q ≠ nextID (store w)) :
  (Store.Get (nextID (store w)) (Store.Create p w).2).1
  = (mkResponse 200 "Ok" (APatient (setID p (nextID (store w)))), true)
  ∧ (∀ id : Z, id ≠ nextID (store w) →
       (Store.Get id (Store.Create p w).2).1 = (Store.Get id w).1).
Proof.
  destruct (Store.Create p w) as [r w'] eqn:E.
  destruct (Create_spec _ _ _ _ Hok E) as (_ & Hc & _). simpl.
  split.
  - rewrite Get_lookup, Hc, lookupID_app. simpl.
    rewrite (proj2 (lookupID_None _ _) Hfresh).
    rewrite lookupID_cons. simpl. by rewrite decide_True.
  - intros id Hne. rewrite !Get_lookup, Hc, lookupID_app. simpl.
    destruct (lookupID id (contents w)); [done|].
    rewrite lookupID_cons. simpl. by rewrite decide_False.
Qed.

(** X6.  [Store.Delete] of one id does not disturb the others: a [Get] of
    any other id returns afterwards what it returned before, and the id
    counter is not moved. *)
Theorem X6_delete_keeps_other_lookups `{SliceGrowth} (id : Z) (w : World)
    (Hok : store_ok w) :
  (∀ id' : Z, id' ≠ id →
     (Store.Get id' (Store.Delete id w).2).1 = (Store.Get id' w).1)
  ∧ nextID (store (Store.Delete id w).2) = nextID (store w).
Proof.
  destruct (Delete_contents id w Hok) as (_ & Hn & _ & Hc).
  split; [|done]. intros id' Hne. rewrite !Get_lookup, Hc. simpl.
  destruct (scan id (contents w)) as [[i p]|] eqn:E; [|done].
  apply scan_Some in E as (Hp & Hid & _).
  rewrite <- (take_drop_middle (contents w) i p Hp) at 3.
  rewrite !lookupID_app, lookupID_cons.
  rewrite decide_False by congruence. done.
Qed.

(** X7.  In a well-formed store with pairwise distinct ids, deleting the
    same id a second time returns false and changes nothing. *)
Theorem X7_delete_twice `{SliceGrowth} (id : Z) (w : World)
    (Hok : store_ok w) (Huniq : ids_unique w) :
  Store.Delete id (Store.Delete id w).2 = (false, (Store.Delete id w).2).
Proof.
  destruct (Delete_contents id w Hok) as (_ & _ & _ & Hc).
  apply Delete_missing. rewrite Hc.
  destruct (scan id (contents w)) as [[i p]|] eqn:E; [|done].
  apply scan_Some in E as (Hp & <- & _). by apply scan_removed.
Qed.

(* ===================================================================== *)
(** ** Counting records over a run *)
(* ===================================================================== *)

Section Counting.
Context `{SliceGrowth}.
Local Open Scope nat_scope.

Lemma exec_length o w r w' :
  store_ok w → exec o w = (r, w') →
  length (contents w') + (if is_deleted r then 1 else 0)
  = length (contents w) + (if is_create o then 1 else 0).
Proof.
  intros Hok. destruct o as [|id|p|id upd|id]; unfold exec.
  - destruct (Store.List w) as [r0 w0] eqn:E. intros [= <- <-].
    destruct (List_spec _ _ _ Hok E) as (out & _ & _ & Hm & _ & Hs).
    destruct (alloc_keeps _ _ _ Hok Hm Hs) as (-> & _ & _). simpl. lia.
  - rewrite Get_lookup. destruct (getResult _) as [r0 b].
    intros [= <- <-]. simpl. lia.
  - destruct (Store.Create p w) as [r0 w0] eqn:E. intros [= <- <-].
    destruct (Create_spec _ _ _ _ Hok E) as (_ & -> & _).
    rewrite length_app. simpl. lia.
  - destruct (Update_contents id upd w Hok) as (_ & _ & Hc).
    destruct (Store.Update id upd w) as [[r0 b] w0]. intros [= <- <-].
    simpl in *. rewrite Hc.
    destruct (scan id (contents w)) as [[i q]|]; [rewrite length_insert|];
      lia.
  - destruct (scan id (contents w)) as [[i q]|] eqn:E.
    + destruct (Delete_spec id w i q Hok E) as (w0 & -> & Hc & _).
      intros [= <- <-]. simpl. rewrite Hc.
      apply scan_Some in E as (Hq & _ & _). apply lookup_lt_Some in Hq.
      rewrite length_app, length_take, length_drop. lia.
    + rewrite Delete_missing by done. intros [= <- <-]. simpl. lia.
Qed.

Lemma run_length ops : ∀ w rs w',
  store_ok w → run ops w = (rs, w') →
  length (contents w') + deleted rs = length (contents w) + creates ops.
Proof.
  induction ops as [|o ops IH]; intros w rs w' Hok.
  - simpl. intros [= <- <-]. simpl. lia.
  - simpl run. destruct (exec o w) as [r w1] eqn:E1.
    destruct (run ops w1) as [rs1 w2] eqn:E2. intros [= <- <-].
    pose proof (exec_length _ _ _ _ Hok E1) as H1.
    apply exec_ok in E1 as [Hok1 _]; [|done].
    pose proof (IH _ _ _ Hok1 E2) as H2.
    rewrite creates_cons. simpl deleted.
    destruct (is_deleted r), (is_create o); lia.
Qed.

End Counting.

(** X8.  After any run of store calls on a fresh store, the number of
    records held is the number of [Create] calls minus the number of
    [Delete] calls that returned true. *)
Theorem X8_record_count `{SliceGrowth} (ops : list Op) :
  (length (contents (run ops NewStore).2) + deleted (run ops NewStore).1
   = creates ops)%nat.
Proof.
  destruct (run ops NewStore) as [rs w'] eqn:E. simpl.
  by rewrite (run_length ops _ _ _ NewStore_ok E).
Qed.

(** X9.  After any run on a fresh store with fewer than 2^63 - 1 [Create]
    calls, the state is well formed, the counter stands one above the
    number of creations, and the stored ids are pairwise distinct, at
    least 1 and below the counter; so the next [Create] hands out an id
    that no stored record has. *)
Theorem X9_reachable_ids_below_counter `{SliceGrowth} (ops : list Op)
    (Hrange : Z.of_nat (creates ops) < 2 ^ 63 - 1) :
  store_ok (run ops NewStore).2
  ∧ nextID (store (run ops NewStore).2) = 1 + Z.of_nat (creates ops)
  ∧ ids_unique (run ops NewStore).2
  ∧ Forall (λ p, 1 ≤ ID p < nextID (store (run ops NewStore).2))
      (contents (run ops NewStore).2).
Proof.
  destruct (run ops NewStore) as [rs w'] eqn:E. simpl.
  assert (Hf : ids_fresh NewStore 0).
  { unfold ids_fresh. split_and!; [done|apply Forall_nil_2|apply NoDup_nil_2]. }
  destruct (run_ids_fresh ops _ _ _ 0 NewStore_ok Hf ltac:(lia) ltac:(lia) E)
    as [Hok (Hn & Hall & Hnd)].
  rewrite Z.add_0_l in *.
  rewrite wrap64_small in Hn by lia.
  split_and!; auto. rewrite Hn.
  eapply Forall_impl; [exact Hall|]. simpl. intros; lia.
Qed.

(* ===================================================================== *)
(** ** Error envelopes as the handlers send them *)
(* ===================================================================== *)

Section Replies.

Lemma newResponseError_label code msg :
  String.eqb (EStatus (newResponseError code msg)) "" = false.
Proof.
  unfold newResponseError. simpl.
  destruct (String.eqb (GoLib.StatusText code) "") eqn:E; [reflexivity|done].
Qed.

Lemma writeError_built m w code msg :
  code ≠ 0 →
  writeError m w (newResponseError code msg)
  = writeJSON m w code (VError (newResponseError code msg)).
Proof.
  intros Hc. unfold writeError.
  replace (ECode (newResponseError code msg) =? 0) with false
    by (symmetry; apply Z.eqb_neq; exact Hc).
  by rewrite newResponseError_label.
Qed.

Lemma writeError_404 m w msg :
  sent w = None →
  writeError m w (newResponseError HTTP.StatusNotFound msg)
  = replied w 404 (WError 404 "Not Found" msg).
Proof. intros Hs. unfold writeError. simpl. by rewrite writeJSON_fresh. Qed.

Lemma writeError_405 m w msg :
  sent w = None →
  writeError m w (newResponseError HTTP.StatusMethodNotAllowed msg)
  = replied w 405 (WError 405 "Method Not Allowed" msg).
Proof. intros Hs. unfold writeError. simpl. by rewrite writeJSON_fresh. Qed.

End Replies.

(** X10.  [newResponseError] never leaves the status label empty, so for a
    final status code that carries a body, 200 to 999 other than 204 and
    304, [writeError] sends the envelope exactly as built: status line,
    code and label are those of the code given, and the message is passed
    through. *)
Theorem X10_built_envelope_sent_unchanged (m : Mem) (w : ResponseWriter)
    (code : Z) (msg : string)
    (Hlo : 200 ≤ code) (Hhi : code ≤ 999)
    (H204 : code ≠ 204) (H304 : code ≠ 304) (Hw : sent w = None) :
  EStatus (newResponseError code msg) ≠ ""
  ∧ writeError m w (newResponseError code msg)
    = replied w code
        (WError code (EStatus (newResponseError code msg)) msg).
Proof.
  split.
  - apply String.eqb_neq, newResponseError_label.
  - rewrite writeError_built by lia. by rewrite writeJSON_fresh.
Qed.

(* ===================================================================== *)
(** ** The remaining branches of the handlers *)
(* ===================================================================== *)

Section Branches.
Context `{SliceGrowth} `{JSONDecoder}.

Lemma patientHandler_parsed w r σ id :
  GoLib.ParseInt (idSegment (Path r)) = Some id →
  patientHandler w r σ = patientMethods id w r σ.
Proof.
  intros Hid. unfold patientHandler. rewrite Hid.
  destruct (String.eqb (idSegment (Path r)) "") eqn:Ee; [|done].
  apply String.eqb_eq in Ee. by rewrite Ee, ParseInt_empty in Hid.
Qed.

Lemma scan_absent id (l : list Patient) :
  (∀ p, p ∈ l → ID p ≠ id) → scan id l = None.
Proof.
  intros Hno. unfold scan. apply list_find_None, Forall_forall. auto.
Qed.

Lemma List_contents σ :
  store_ok σ →
  ∃ out, Store.List σ = (mkResponse 200 "Ok" (ASlice out), (Store.List σ).2)
    ∧ Slices.elems (mem (Store.List σ).2) out = contents σ
    ∧ store (Store.List σ).2 = store σ
    ∧ contents (Store.List σ).2 = contents σ
    ∧ store_ok (Store.List σ).2.
Proof.
  intros Hok. destruct (Store.List σ) as [r0 σ0] eqn:E.
  destruct (List_spec _ _ _ Hok E) as (out & -> & _ & Hm & He & Hs).
  destruct (alloc_keeps _ _ _ Hok Hm Hs) as (Hc & Hok' & _).
  exists out. simpl. split_and!; auto.
Qed.

End Branches.

(** X11.  A GET on the collection route replies 200 with the envelope
    200 / "Ok" whose data is the array of all stored patients in store
    order (the empty array for an empty store); the stored records and the
    id counter are left as they were. *)
Theorem X11_get_collection `{SliceGrowth} `{JSONDecoder}
    (w : ResponseWriter) (r : Request) (σ : World)
    (Hm : Method r = "GET") (Hw : sent w = None) (Hok : store_ok σ) :
  (patientsHandler w r σ).1
  = replied w 200 (WResponse 200 "Ok" (PArray (contents σ)))
  ∧ contents (patientsHandler w r σ).2 = contents σ
  ∧ store (patientsHandler w r σ).2 = store σ.
Proof.
  unfold patientsHandler. rewrite Hm.
  change (String.eqb "GET" HTTP.MethodGet) with true. cbv beta iota.
  destruct (List_contents σ Hok) as (out & E & He & Hs & Hc & _).
  destruct (Store.List σ) as [resp σ1]. simpl in *. injection E as ->.
  rewrite writeJSON_fresh by done. simpl. by rewrite He.
Qed.

(** X12.  A method the route does not serve gets 405 with the message
    "method not allowed" and leaves the state as it was: on the collection
    route any method but GET and POST, on the item route (with an id that
    parses) any method but GET, PUT and DELETE. *)
Theorem X12_method_not_allowed `{SliceGrowth} `{JSONDecoder}
    (w : ResponseWriter) (r : Request) (σ : World) (Hw : sent w = None) :
  (Method r ≠ "GET" → Method r ≠ "POST" →
     patientsHandler w r σ
     = (replied w 405 (WError 405 "Method Not Allowed" "method not allowed"),
        σ))
  ∧ (∀ id : Z, GoLib.ParseInt (idSegment (Path r)) = Some id →
       Method r ≠ "GET" → Method r ≠ "PUT" → Method r ≠ "DELETE" →
       patientHandler w r σ
       = (replied w 405
            (WError 405 "Method Not Allowed" "method not allowed"), σ)).
Proof.
  split.
  - intros H1 H2. unfold patientsHandler, HTTP.MethodGet, HTTP.MethodPost.
    rewrite !eqb_false_ne by done. by rewrite writeError_405.
  - intros id Hid H1 H2 H3. rewrite (patientHandler_parsed _ _ _ id Hid).
    unfold patientMethods, HTTP.MethodGet, HTTP.MethodPut, HTTP.MethodDelete.
    rewrite !eqb_false_ne by done. by rewrite writeError_405.
Qed.

(** X13.  A GET on the item route with an id that parses never changes the
    state; when a stored record has the id (ids being distinct) the reply
    is 200 with the envelope 200 / "Ok" carrying that record, and when no
    record has it the reply is 404 with the message "patient not found". *)
Theorem X13_get_item `{SliceGrowth} `{JSONDecoder}
    (w : ResponseWriter) (r : Request) (σ : World) (id : Z)
    (Hm : Method r = "GET") (Hw : sent w = None)
    (Hid : GoLib.ParseInt (idSegment (Path r)) = Some id) :
  (patientHandler w r σ).2 = σ
  ∧ (∀ p : Patient, ids_unique σ → p ∈ contents σ → ID p = id →
       (patientHandler w r σ).1
       = replied w 200 (WResponse 200 "Ok" (PObject p)))
  ∧ ((∀ p : Patient, p ∈ contents σ → ID p ≠ id) →
       (patientHandler w r σ).1
       = replied w 404 (WError 404 "Not Found" "patient not found")).
Proof.
  rewrite (patientHandler_parsed _ _ _ id Hid).
  unfold patientMethods. rewrite Hm. simpl. rewrite Get_lookup.
  split_and!.
  - by destruct (lookupID id (contents σ)).
  - intros p Hu Hp Hpid. rewrite (lookupID_unique id _ p Hu Hp Hpid). simpl.
    by rewrite writeJSON_fresh.
  - intros Hno. rewrite (proj2 (lookupID_None _ _) Hno). simpl.
    by rewrite writeError_404.
Qed.

(** X14.  A PUT on the item route with an id that parses: a body that does
    not decode gets 400 "invalid JSON body" and leaves the state as it
    was; with a decoded body that has some field non-empty after trimming,
    the reply is 404 "patient not found" and the state is unchanged when
    no record has the id, and otherwise (ids being distinct) the reply is
    200 carrying the record with every non-empty input field applied,
    which replaces the old record at its place in the store. *)
Theorem X14_put_item `{SliceGrowth} `{JSONDecoder}
    (w : ResponseWriter) (r : Request) (σ : World) (id : Z)
    (Hm : Method r = "PUT") (Hw : sent w = None) (Hok : store_ok σ)
    (Hid : GoLib.ParseInt (idSegment (Path r)) = Some id) :
  (decodePatient (Body r) = None →
     patientHandler w r σ
     = (replied w 400 (WError 400 "Bad Request" "invalid JSON body"), σ))
  ∧ (∀ upd : Patient, decodePatient (Body r) = Some upd →
       GoLib.TrimSpace (Fullname upd) ≠ "" ∨ GoLib.TrimSpace (Sex upd) ≠ ""
       ∨ GoLib.TrimSpace (Birthdate upd) ≠ ""
       ∨ GoLib.TrimSpace (Address upd) ≠ "" →
       ((∀ p : Patient, p ∈ contents σ → ID p ≠ id) →
          patientHandler w r σ
          = (replied w 404 (WError 404 "Not Found" "patient not found"), σ))
       ∧ (∀ old : Patient, ids_unique σ → old ∈ contents σ → ID old = id →
            ∃ i : nat,
              contents σ !! i = Some old
              ∧ (patientHandler w r σ).1
                = replied w 200
                    (WResponse 200 "Ok" (PObject (merge old upd)))
              ∧ contents (patientHandler w r σ).2
                = <[i:=merge old upd]> (contents σ))).
Proof.
  rewrite (patientHandler_parsed _ _ _ id Hid).
  unfold patientMethods. rewrite Hm.
  change (String.eqb "PUT" HTTP.MethodGet) with false.
  change (String.eqb "PUT" HTTP.MethodPut) with true. cbv beta iota.
  split.
  - intros ->. by rewrite writeError_400.
  - intros upd -> Hsome.
    assert (Hb : blank (Fullname upd) && blank (Sex upd)
                 && blank (Birthdate upd) && blank (Address upd) = false).
    { rewrite !andb_false_iff, !blank_false. tauto. }
    rewrite Hb. split.
    + intros Hno.
      rewrite (Update_missing id upd σ (scan_absent id _ Hno)). simpl.
      by rewrite writeError_404.
    + intros old Hu Hin Hold.
      destruct (scan_unique id (contents σ) old Hu Hin Hold) as (i & Hs & Hi).
      destruct (Update_spec id upd σ i old Hok Hs) as (σ' & -> & Hc & _).
      exists i. simpl. rewrite writeJSON_fresh by done. auto.
Qed.

(** X15.  A DELETE on the item route with an id that parses: when no
    record has the id the reply is 404 "patient not found" and the state
    is unchanged; otherwise (ids being distinct) the record is removed, the
    others keeping their order, and the reply is the bare status 204: no
    body is written and no header is added. *)
Theorem X15_delete_item `{SliceGrowth} `{JSONDecoder}
    (w : ResponseWriter) (r : Request) (σ : World) (id : Z)
    (Hm : Method r = "DELETE") (Hw : sent w = None) (Hok : store_ok σ)
    (Hid : GoLib.ParseInt (idSegment (Path r)) = Some id) :
  ((∀ p : Patient, p ∈ contents σ → ID p ≠ id) →
     patientHandler w r σ
     = (replied w 404 (WError 404 "Not Found" "patient not found"), σ))
  ∧ (∀ p : Patient, ids_unique σ → p ∈ contents σ → ID p = id →
       ∃ l1 l2 : list Patient,
         contents σ = l1 ++ p :: l2
         ∧ contents (patientHandler w r σ).2 = l1 ++ l2
         ∧ (patientHandler w r σ).1
           = mkResponseWriter (header w) (Some (204, header w)) (body w)).
Proof.
  rewrite (patientHandler_parsed _ _ _ id Hid).
  unfold patientMethods. rewrite Hm.
  change (String.eqb "DELETE" HTTP.MethodGet) with false.
  change (String.eqb "DELETE" HTTP.MethodPut) with false.
  change (String.eqb "DELETE" HTTP.MethodDelete) with true. cbv beta iota.
  split.
  - intros Hno. rewrite (Delete_missing id σ (scan_absent id _ Hno)). simpl.
    by rewrite writeError_404.
  - intros p Hu Hin Hp.
    destruct (scan_unique id (contents σ) p Hu Hin Hp) as (i & Hs & Hi).
    destruct (Delete_spec id σ i p Hok Hs) as (σ' & -> & Hc & _).
    exists (take i (contents σ)), (drop (S i) (contents σ)). simpl.
    split_and!; auto.
    + symmetry. by apply take_drop_middle.
    + unfold HTTP.WriteHeader. by rewrite Hw.
Qed.

(* ===================================================================== *)
(** ** What every reply carries *)
(* ===================================================================== *)

Section EveryReply.
Context `{SliceGrowth} `{JSONDecoder}.

Lemma sends_replied codes w code x :
  code ∈ codes → sends codes w (replied w code x).
Proof. intros Hc. exists code. split; [done|]. by right. Qed.

Lemma patientsHandler_sends w r σ :
  sent w = None → sends [200; 201; 400; 405] w (patientsHandler w r σ).1.
Proof.
  intros Hw. unfold patientsHandler.
  destruct (String.eqb (Method r) HTTP.MethodGet).
  { destruct (Store.List σ) as [resp σ1]. simpl.
    rewrite writeJSON_fresh by done. apply sends_replied. set_solver. }
  destruct (String.eqb (Method r) HTTP.MethodPost).
  - destruct (decodePatient (Body r)) as [p|].
    + destruct (blank (Fullname p) || blank (Sex p) || blank (Birthdate p)
                || blank (Address p)).
      * simpl. rewrite writeError_400 by done. apply sends_replied.
        set_solver.
      * destruct (Store.Create p σ) as [resp σ1]. simpl.
        rewrite writeJSON_fresh by done. apply sends_replied. set_solver.
    + simpl. rewrite writeError_400 by done. apply sends_replied. set_solver.
  - simpl. rewrite writeError_405 by done. apply sends_replied. set_solver.
Qed.

Lemma patientMethods_sends id w r σ :
  sent w = None →
  sends [200; 204; 400; 404; 405] w (patientMethods id w r σ).1.
Proof.
  intros Hw. unfold patientMethods.
  destruct (String.eqb (Method r) HTTP.MethodGet).
  { destruct (Store.Get id σ) as [[resp ok] σ1]. destruct ok; simpl.
    - rewrite writeJSON_fresh by done. apply sends_replied. set_solver.
    - rewrite writeError_404 by done. apply sends_replied. set_solver. }
  destruct (String.eqb (Method r) HTTP.MethodPut).
  { destruct (decodePatient (Body r)) as [upd|].
    - destruct (blank (Fullname upd) && blank (Sex upd)
                && blank (Birthdate upd) && blank (Address upd)).
      + simpl. rewrite writeError_400 by done. apply sends_replied.
        set_solver.
      + destruct (Store.Update id upd σ) as [[resp ok] σ1].
        destruct ok; simpl.
        * rewrite writeJSON_fresh by done. apply sends_replied. set_solver.
        * rewrite writeError_404 by done. apply sends_replied. set_solver.
    - simpl. rewrite writeError_400 by done. apply sends_replied.
      set_solver. }
  destruct (String.eqb (Method r) HTTP.MethodDelete).
  - destruct (Store.Delete id σ) as [ok σ1]. destruct ok; simpl.
    + exists 204. split; [set_solver|]. left.
      unfold HTTP.WriteHeader. by rewrite Hw.
    + rewrite writeError_404 by done. apply sends_replied. set_solver.
  - simpl. rewrite writeError_405 by done. apply sends_replied. set_solver.
Qed.

Lemma patientHandler_sends w r σ :
  sent w = None →
  sends [200; 204; 400; 404; 405] w (patientHandler w r σ).1.
Proof.
  intros Hw. unfold patientHandler.
  destruct (GoLib.ParseInt (idSegment (Path r))) as [id|].
  - destruct (String.eqb (idSegment (Path r)) "").
    + simpl. rewrite writeError_400 by done. apply sends_replied. set_solver.
    + by apply patientMethods_sends.
  - simpl. rewrite writeError_400 by done. apply sends_replied. set_solver.
Qed.

(** Behind the middleware, a handler that sends as above sends the three
    cross-origin headers with its status line. *)
Lemma cors_sends codes (next : Handler) w r σ :
  sent w = None →
  (∀ w0 r0 σ0, sent w0 = None → sends codes w0 (next w0 r0 σ0).1) →
  ∃ (code : Z) (h : gmap string (list string)),
    sent (corsMiddleware next w r σ).1 = Some (code, h)
    ∧ (code = 204 ∨ code ∈ codes)
    ∧ h !! "Access-Control-Allow-Origin" = Some ["*"]
    ∧ h !! "Access-Control-Allow-Methods"
      = Some ["GET, POST, PUT, DELETE, OPTIONS"]
    ∧ h !! "Access-Control-Allow-Headers"
      = Some ["Content-Type, Authorization"].
Proof.
  intros Hw Hnext. unfold corsMiddleware.
  set (w1 := HTTP.HeaderSet "Access-Control-Allow-Headers" _ _).
  assert (Hw1 : sent w1 = None) by done.
  assert (Hh : header w1 = corsHeaders (header w)) by done.
  assert (H1 : corsHeaders (header w) !! "Access-Control-Allow-Origin"
               = Some ["*"]).
  { unfold corsHeaders. rewrite lookup_insert_ne, lookup_insert_ne by done.
    apply lookup_insert_eq. }
  assert (H2 : corsHeaders (header w) !! "Access-Control-Allow-Methods"
               = Some ["GET, POST, PUT, DELETE, OPTIONS"]).
  { unfold corsHeaders. rewrite lookup_insert_ne by done.
    apply lookup_insert_eq. }
  assert (H3 : corsHeaders (header w) !! "Access-Control-Allow-Headers"
               = Some ["Content-Type, Authorization"]).
  { unfold corsHeaders. apply lookup_insert_eq. }
  destruct (String.eqb (Method r) HTTP.MethodOptions).
  - exists 204, (corsHeaders (header w)). simpl.
    unfold HTTP.WriteHeader. rewrite Hw1, Hh. auto.
  - destruct (Hnext w1 r σ Hw1) as (code & Hc & [Hs|Hs]); rewrite Hh in Hs.
    + exists code, (corsHeaders (header w)). auto.
    + exists code, (<["Content-Type" := ["application/json"]]>
                      (corsHeaders (header w))).
      rewrite !lookup_insert_ne by done. auto.
Qed.

End EveryReply.

(** X16.  Behind the middleware, both patient handlers send a status line
    for every request, whatever the method, path, body and state, and with
    it the three cross-origin headers; the status is one of 200, 201, 204,
    400, 405 on the collection route and one of 200, 204, 400, 404, 405 on
    the item route. *)
Theorem X16_every_reply_has_cors_headers `{SliceGrowth} `{JSONDecoder}
    (w : ResponseWriter) (r : Request) (σ : World) (Hw : sent w = None) :
  (∃ (code : Z) (h : gmap string (list string)),
     sent (corsMiddleware patientsHandler w r σ).1 = Some (code, h)
     ∧ code ∈ [200; 201; 204; 400; 405]
     ∧ h !! "Access-Control-Allow-Origin" = Some ["*"]
     ∧ h !! "Access-Control-Allow-Methods"
       = Some ["GET, POST, PUT, DELETE, OPTIONS"]
     ∧ h !! "Access-Control-Allow-Headers"
       = Some ["Content-Type, Authorization"])
  ∧ (∃ (code : Z) (h : gmap string (list string)),
       sent (corsMiddleware patientHandler w r σ).1 = Some (code, h)
       ∧ code ∈ [200; 204; 400; 404; 405]
       ∧ h !! "Access-Control-Allow-Origin" = Some ["*"]
       ∧ h !! "Access-Control-Allow-Methods"
         = Some ["GET, POST, PUT, DELETE, OPTIONS"]
       ∧ h !! "Access-Control-Allow-Headers"
         = Some ["Content-Type, Authorization"]).
Proof.
  split.
  - destruct (cors_sends [200; 201; 400; 405] patientsHandler w r σ Hw
                patientsHandler_sends) as (code & h & Hs & Hc & H1 & H2 & H3).
    exists code, h. split_and!; [done| |done..].
    destruct Hc as [->|Hc]; [|revert Hc]; rewrite !elem_of_cons; tauto.
  - destruct (cors_sends [200; 204; 400; 404; 405] patientHandler w r σ Hw
                patientHandler_sends) as (code & h & Hs & Hc & H1 & H2 & H3).
    exists code, h. split_and!; [done| |done..].
    destruct Hc as [->|Hc]; [|done]. rewrite !elem_of_cons. tauto.
Qed.

(** X17.  A record created by a valid POST can be fetched: in a well-formed
    store where no record has the counter's value as id, after the POST a
    GET on the item route whose id segment parses to the id handed out
    replies 200 carrying the record as it was posted, with that id, and
    does not change the state. *)
Theorem X17_post_then_get `{SliceGrowth} `{JSONDecoder}
    (w1 w2 : ResponseWriter) (r1 r2 : Request) (σ : World) (p : Patient)
    (Hok : store_ok σ)
    (Hfresh : ∀ q, q ∈ contents σ → ID q ≠ nextID (store σ))
    (Hm1 : Method r1 = "POST") (Hd : decodePatient (Body r1) = Some p)
    (Hf : GoLib.TrimSpace (Fullname p) ≠ "")
    (Hs : GoLib.TrimSpace (Sex p) ≠ "")
    (Hb : GoLib.TrimSpace (Birthdate p) ≠ "")
    (Ha : GoLib.TrimSpace (Address p) ≠ "")
    (Hm2 : Method r2 = "GET") (Hw2 : sent w2 = None)
    (Hid : GoLib.ParseInt (idSegment (Path r2)) = Some (nextID (store σ))) :
  patientHandler w2 r2 (patientsHandler w1 r1 σ).2
  = (replied w2 200
       (WResponse 200 "Ok" (PObject (setID p (nextID (store σ))))),
     (patientsHandler w1 r1 σ).2).
Proof.
  assert (Hpost : (patientsHandler w1 r1 σ).2 = (Store.Create p σ).2).
  { unfold patientsHandler. rewrite Hm1.
    change (String.eqb "POST" HTTP.MethodGet) with false.
    change (String.eqb "POST" HTTP.MethodPost) with true. cbv beta iota.
    rewrite Hd. apply blank_false in Hf, Hs, Hb, Ha.
    rewrite Hf, Hs, Hb, Ha. simpl.
    by destruct (Store.Create p σ) as [created σ']. }
  rewrite Hpost. destruct (Store.Create p σ) as [created σ'] eqn:E.
  destruct (Create_spec _ _ _ _ Hok E) as (_ & Hc & _). simpl.
  rewrite (patientHandler_parsed _ _ _ _ Hid).
  unfold patientMethods. rewrite Hm2.
  change (String.eqb "GET" HTTP.MethodGet) with true. cbv beta iota.
  rewrite Get_lookup, Hc, lookupID_app.
  rewrite (proj2 (lookupID_None _ _) Hfresh), lookupID_cons. simpl.
  rewrite decide_True by done. simpl. by rewrite writeJSON_fresh.
Qed.

(** X18.  Whatever the growth policy of [append], the state [main] starts
    serving with is well formed and holds exactly the two seed records, in
    order, with ids 1 and 2; the counter stands at 3. *)
Theorem X18_seeded_state `{SliceGrowth} :
  store_ok seeded
  ∧ contents seeded = [setID alice 1; setID bob 2]
  ∧ nextID (store seeded) = 3
  ∧ ids_unique seeded.
Proof.
  unfold seeded.
  destruct (Store.Create alice NewStore) as [r1 w1] eqn:E1.
  destruct (Create_spec _ _ _ _ NewStore_ok E1) as (_ & Hc1 & Hn1 & Hok1 & _).
  simpl. destruct (Store.Create bob w1) as [r2 w2] eqn:E2.
  destruct (Create_spec _ _ _ _ Hok1 E2) as (_ & Hc2 & Hn2 & Hok2 & _).
  simpl. assert (Hn : nextID (store w1) = 2) by (by rewrite Hn1).
  assert (Hc : contents w2 = [setID alice 1; setID bob 2]).
  { rewrite Hc2, Hc1, Hn. reflexivity. }
  split_and!; auto.
  - by rewrite Hn2, Hn.
  - unfold ids_unique. rewrite Hc. simpl.
    apply (bool_decide_unpack _). vm_compute. exact I.
Qed.

(* ===================================================================== *)
(** ** The id segment of a path *)
(* ===================================================================== *)

Section Paths.

Lemma list_ascii_app (a b : string) :
  list_ascii_of_string (a +:+ b)
  = list_ascii_of_string a ++ list_ascii_of_string b.
Proof. induction a as [|c a IH]; simpl; [done|]. by rewrite IH. Qed.

Lemma list_ascii_length (s : string) :
  length (list_ascii_of_string s) = String.length s.
Proof. induction s as [|c s IH]; simpl; [done|]. by rewrite IH. Qed.

Lemma TrimPrefix_app (p t : string) : GoLib.TrimPrefix (p +:+ t) p = t.
Proof.
  unfold GoLib.TrimPrefix, GoLib.HasPrefix.
  rewrite list_ascii_app, <- list_ascii_length.
  rewrite take_app_length, drop_app_length.
  rewrite bool_decide_eq_true_2 by (rewrite length_app; lia).
  rewrite bool_decide_eq_true_2 by done. simpl.
  apply string_of_list_ascii_of_string.
Qed.

Lemma TrimSuffix_app (t x : string) : GoLib.TrimSuffix (t +:+ x) x = t.
Proof.
  unfold GoLib.TrimSuffix, GoLib.HasSuffix.
  rewrite list_ascii_app, <- !list_ascii_length, list_ascii_app.
  rewrite length_app.
  replace (length (list_ascii_of_string t) + length (list_ascii_of_string x)
           - length (list_ascii_of_string x))%nat
    with (length (list_ascii_of_string t)) by lia.
  rewrite take_app_length, drop_app_length.
  rewrite bool_decide_eq_true_2 by lia.
  rewrite bool_decide_eq_true_2 by done. simpl.
  apply string_of_list_ascii_of_string.
Qed.

End Paths.

(** X19.  The id segment of ["/patients/" + s + "/"] is [s]: exactly one
    trailing slash is stripped.  When [s] does not itself end in a slash
    it is also the id segment of ["/patients/" + s], so the item handler
    treats the path with and without the trailing slash alike. *)
Theorem X19_one_trailing_slash `{SliceGrowth} `{JSONDecoder} (s : string) :
  idSegment ("/patients/" +:+ s +:+ "/") = s
  ∧ (GoLib.HasSuffix s "/" = false → idSegment ("/patients/" +:+ s) = s)
  ∧ (GoLib.HasSuffix s "/" = false →
     ∀ (w : ResponseWriter) (m b : string) (σ : World),
       patientHandler w (mkRequest m ("/patients/" +:+ s +:+ "/") b) σ
       = patientHandler w (mkRequest m ("/patients/" +:+ s) b) σ).
Proof.
  assert (E1 : idSegment ("/patients/" +:+ s +:+ "/") = s).
  { unfold idSegment. by rewrite TrimPrefix_app, TrimSuffix_app. }
  assert (E2 : GoLib.HasSuffix s "/" = false →
               idSegment ("/patients/" +:+ s) = s).
  { intros Hn. unfold idSegment. rewrite TrimPrefix_app.
    unfold GoLib.TrimSuffix. by rewrite Hn. }
  split_and!; [done..|].
  intros Hn w m b σ. unfold patientHandler, patientMethods. simpl.
  by rewrite E1, (E2 Hn).
Qed.

(* ===================================================================== *)
(** ** The handlers keep the store's invariant *)
(* ===================================================================== *)

Section HandlerSteps.
Context `{SliceGrowth} `{JSONDecoder}.

(** A handler leaves the state alone or makes one call on the store. *)
Lemma patientsHandler_step w r σ :
  (patientsHandler w r σ).2 = σ
  ∨ ∃ o : Op, (patientsHandler w r σ).2 = (exec o σ).2.
Proof.
  unfold patientsHandler.
  destruct (String.eqb (Method r) HTTP.MethodGet).
  { right. exists OpList. unfold exec.
    by destruct (Store.List σ) as [resp σ1]. }
  destruct (String.eqb (Method r) HTTP.MethodPost); [|by left].
  destruct (decodePatient (Body r)) as [p|]; [|by left].
  destruct (blank (Fullname p) || blank (Sex p) || blank (Birthdate p)
            || blank (Address p)); [by left|].
  right. exists (OpCreate p). unfold exec.
  by destruct (Store.Create p σ) as [resp σ1].
Qed.

Lemma patientHandler_step w r σ :
  (patientHandler w r σ).2 = σ
  ∨ ∃ o : Op, (patientHandler w r σ).2 = (exec o σ).2.
Proof.
  unfold patientHandler.
  destruct (GoLib.ParseInt (idSegment (Path r))) as [id|]; [|by left].
  destruct (String.eqb (idSegment (Path r)) ""); [by left|].
  unfold patientMethods.
  destruct (String.eqb (Method r) HTTP.MethodGet).
  { right. exists (OpGet id). unfold exec.
    destruct (Store.Get id σ) as [[resp ok] σ1]. by destruct ok. }
  destruct (String.eqb (Method r) HTTP.MethodPut).
  { destruct (decodePatient (Body r)) as [upd|]; [|by left].
    destruct (blank (Fullname upd) && blank (Sex upd)
              && blank (Birthdate upd) && blank (Address upd)); [by left|].
    right. exists (OpUpdate id upd). unfold exec.
    destruct (Store.Update id upd σ) as [[resp ok] σ1]. by destruct ok. }
  destruct (String.eqb (Method r) HTTP.MethodDelete); [|by left].
  right. exists (OpDelete id). unfold exec.
  destruct (Store.Delete id σ) as [ok σ1]. by destruct ok.
Qed.

Lemma step_keeps_invariant σ σ' c :
  store_ok σ → ids_fresh σ c → 0 ≤ c → c + 1 < 2 ^ 63 →
  (σ' = σ ∨ ∃ o : Op, σ' = (exec o σ).2) →
  store_ok σ' ∧ ids_unique σ' ∧ (ids_fresh σ' c ∨ ids_fresh σ' (c + 1)).
Proof.
  intros Hok Hf Hc Hlt [->|[o ->]].
  - split_and!; auto. by destruct Hf as (_ & _ & ?).
  - destruct (exec o σ) as [res σ1] eqn:E. simpl.
    assert (Hb : bump o = 0 ∨ bump o = 1).
    { unfold bump. destruct (is_create o); auto. }
    assert (Hf1 : ids_fresh σ1 (c + bump o)).
    { eapply exec_ids_fresh; eauto. lia. }
    apply exec_ok in E as [Hok1 _]; [|done].
    split_and!; [done| |].
    + by destruct Hf1 as (_ & _ & ?).
    + destruct Hb as [Hb|Hb]; rewrite Hb in Hf1;
        rewrite ?Z.add_0_r in Hf1; auto.
Qed.

End HandlerSteps.

(** X20.  Both patient handlers keep the store's invariant, whatever the
    request: from a well-formed state whose ids are distinct numbers of
    1 .. c with the counter at c + 1 (and c + 1 within the int64 range),
    the state after the handler is well formed, its ids are distinct, and
    they are numbers of 1 .. c with the counter at c + 1, or of 1 .. c + 1
    with the counter at c + 2. *)
Theorem X20_handlers_keep_invariant `{SliceGrowth} `{JSONDecoder}
    (w : ResponseWriter) (r : Request) (σ : World) (c : Z)
    (Hok : store_ok σ) (Hf : ids_fresh σ c) (Hc : 0 ≤ c)
    (Hlt : c + 1 < 2 ^ 63) :
  (store_ok (patientsHandler w r σ).2
   ∧ ids_unique (patientsHandler w r σ).2
   ∧ (ids_fresh (patientsHandler w r σ).2 c
      ∨ ids_fresh (patientsHandler w r σ).2 (c + 1)))
  ∧ (store_ok (patientHandler w r σ).2
     ∧ ids_unique (patientHandler w r σ).2
     ∧ (ids_fresh (patientHandler w r σ).2 c
        ∨ ids_fresh (patientHandler w r σ).2 (c + 1))).
Proof.
  split.
  - apply (step_keeps_invariant σ _ c Hok Hf Hc Hlt).
    apply patientsHandler_step.
  - apply (step_keeps_invariant σ _ c Hok Hf Hc Hlt).
    apply patientHandler_step.
Qed.

(* ===================================================================== *)
(** ** The further theorems at concrete inputs *)
(* ===================================================================== *)

Lemma seededD_next : nextID (store seededD) = 3.
Proof. vm_compute. reflexivity. Qed.

Lemma seededD_counter_unused :
  ∀ q, q ∈ contents seededD → ID q ≠ nextID (store seededD).
Proof.
  intros q. rewrite seededD_contents, seededD_next.
  rewrite !elem_of_cons, elem_of_nil. intros [->|[->|[]]]; discriminate.
Qed.

Lemma seededD_fresh : ids_fresh seededD 2.
Proof.
  unfold ids_fresh. rewrite seededD_contents, seededD_next.
  split_and!; [reflexivity| |apply (bool_decide_unpack _); vm_compute; exact I].
  repeat constructor; simpl; lia.
Qed.

Lemma nonblank_by_eval (s : string) : blank s = false → GoLib.TrimSpace s ≠ "".
Proof. apply blank_false. Qed.

Lemma X3_witness :
  store_ok seededD
  ∧ ID <$> contents (Store.Update 1 spacedSex seededD).2 = [1; 2]
  ∧ contents (Store.Update 1 spacedSex seededD).2 !! 1%nat = Some bobStored.
Proof.
  split; [apply seededD_ok|].
  destruct (X3_update_keeps_ids_and_others 1 spacedSex seededD seededD_ok)
    as (H1 & _ & _ & H4).
  split; [exact H1|]. apply H4; [reflexivity|discriminate].
Defined.

Lemma X4_witness :
  store_ok seededD
  ∧ contents (Store.Update 1 spacedSex (Store.Update 1 spacedSex seededD).2).2
    = contents (Store.Update 1 spacedSex seededD).2.
Proof.
  split; [apply seededD_ok|].
  apply (proj2 (X4_update_twice 1 spacedSex seededD seededD_ok)).
Defined.

Lemma X5_witness :
  store_ok seededD
  ∧ (∀ q, q ∈ contents seededD → ID q ≠ nextID (store seededD))
  ∧ (Store.Get (nextID (store seededD)) (@Store.Create doubling carol seededD).2).1
    = (mkResponse 200 "Ok" (APatient (setID carol (nextID (store seededD)))),
       true).
Proof.
  split_and!; [apply seededD_ok|apply seededD_counter_unused|].
  apply (proj1 (@X5_create_then_get doubling carol seededD seededD_ok
                  seededD_counter_unused)).
Defined.

Lemma X6_witness :
  store_ok seededD
  ∧ (Store.Get 2 (@Store.Delete doubling 1 seededD).2).1
    = (Store.Get 2 seededD).1.
Proof.
  split; [apply seededD_ok|].
  apply (proj1 (@X6_delete_keeps_other_lookups doubling 1 seededD seededD_ok)).
  discriminate.
Defined.

Lemma X7_witness :
  store_ok seededD ∧ ids_unique seededD
  ∧ @Store.Delete doubling 1 (@Store.Delete doubling 1 seededD).2
    = (false, (@Store.Delete doubling 1 seededD).2).
Proof.
  split_and!; [apply seededD_ok|apply seededD_unique|].
  apply (@X7_delete_twice doubling 1 seededD seededD_ok seededD_unique).
Defined.

Lemma X9_witness :
  Z.of_nat (creates sampleOps) < 2 ^ 63 - 1
  ∧ nextID (store (@run doubling sampleOps NewStore).2) = 5
  ∧ ids_unique (@run doubling sampleOps NewStore).2.
Proof.
  assert (Hrange : Z.of_nat (creates sampleOps) < 2 ^ 63 - 1).
  { vm_compute. reflexivity. }
  split; [exact Hrange|].
  destruct (@X9_reachable_ids_below_counter doubling sampleOps Hrange)
    as (_ & H2 & H3 & _).
  split; [exact H2|exact H3].
Defined.

Lemma X10_witness :
  200 ≤ 404 ∧ 404 ≤ 999 ∧ 404 ≠ 204 ∧ 404 ≠ 304
  ∧ sent newResponseWriter = None
  ∧ writeError [] newResponseWriter (newResponseError 404 "patient not found")
    = replied newResponseWriter 404
        (WError 404 (EStatus (newResponseError 404 "patient not found"))
           "patient not found").
Proof.
  assert (H1 : 200 ≤ 404) by lia. assert (H2 : 404 ≤ 999) by lia.
  assert (H3 : 404 ≠ 204) by lia. assert (H4 : 404 ≠ 304) by lia.
  split_and!; [exact H1|exact H2|exact H3|exact H4|reflexivity|].
  apply (proj2 (X10_built_envelope_sent_unchanged [] newResponseWriter 404
                  "patient not found" H1 H2 H3 H4 eq_refl)).
Defined.

Lemma X11_witness :
  store_ok seededD
  ∧ (@patientsHandler doubling sampleDecoder newResponseWriter getAll
       seededD).1
    = replied newResponseWriter 200
        (WResponse 200 "Ok" (PArray (contents seededD))).
Proof.
  split; [apply seededD_ok|].
  apply (proj1 (@X11_get_collection doubling sampleDecoder newResponseWriter
                  getAll seededD eq_refl eq_refl seededD_ok)).
Defined.

Lemma X12_witness :
  sent newResponseWriter = None
  ∧ @patientsHandler doubling sampleDecoder newResponseWriter patchAll seededD
    = (replied newResponseWriter 405
         (WError 405 "Method Not Allowed" "method not allowed"), seededD).
Proof.
  split; [reflexivity|].
  apply (proj1 (@X12_method_not_allowed doubling sampleDecoder
                  newResponseWriter patchAll seededD eq_refl));
    discriminate.
Defined.

Lemma X13_witness :
  GoLib.ParseInt (idSegment (Path getOne)) = Some 1
  ∧ (@patientHandler doubling sampleDecoder newResponseWriter getOne
       seededD).1
    = replied newResponseWriter 200 (WResponse 200 "Ok" (PObject aliceStored)).
Proof.
  assert (Hid : GoLib.ParseInt (idSegment (Path getOne)) = Some 1).
  { vm_compute. reflexivity. }
  split; [exact Hid|].
  destruct (@X13_get_item doubling sampleDecoder newResponseWriter getOne
              seededD 1 eq_refl eq_refl Hid) as (_ & Hfound & _).
  apply Hfound; [apply seededD_unique| |reflexivity].
  rewrite seededD_contents. apply list_elem_of_here.
Defined.

Lemma X14_witness :
  store_ok seededD
  ∧ GoLib.ParseInt (idSegment (Path putCarol)) = Some 2
  ∧ ∃ i : nat,
      contents seededD !! i = Some bobStored
      ∧ contents (@patientHandler doubling sampleDecoder newResponseWriter
                    putCarol seededD).2
        = <[i:=merge bobStored carol]> (contents seededD).
Proof.
  assert (Hid : GoLib.ParseInt (idSegment (Path putCarol)) = Some 2).
  { vm_compute. reflexivity. }
  split_and!; [apply seededD_ok|exact Hid|].
  destruct (@X14_put_item doubling sampleDecoder newResponseWriter putCarol
              seededD 2 eq_refl eq_refl seededD_ok Hid) as (_ & Hdec).
  destruct (Hdec carol eq_refl) as (_ & Hfound).
  { left. apply nonblank_by_eval. reflexivity. }
  destruct (Hfound bobStored seededD_unique) as (i & H1 & _ & H3);
    [|reflexivity|].
  { rewrite seededD_contents. apply list_elem_of_further, list_elem_of_here. }
  exists i. split; [exact H1|exact H3].
Defined.

Lemma X15_witness :
  store_ok seededD
  ∧ GoLib.ParseInt (idSegment (Path deleteOne)) = Some 1
  ∧ (@patientHandler doubling sampleDecoder newResponseWriter deleteOne
       seededD).1
    = mkResponseWriter ∅ (Some (204, ∅)) [].
Proof.
  assert (Hid : GoLib.ParseInt (idSegment (Path deleteOne)) = Some 1).
  { vm_compute. reflexivity. }
  split_and!; [apply seededD_ok|exact Hid|].
  destruct (@X15_delete_item doubling sampleDecoder newResponseWriter
              deleteOne seededD 1 eq_refl eq_refl seededD_ok Hid)
    as (_ & Hfound).
  destruct (Hfound aliceStored seededD_unique) as (l1 & l2 & _ & _ & H3);
    [|reflexivity|exact H3].
  rewrite seededD_contents. apply list_elem_of_here.
Defined.

Lemma X16_witness :
  sent newResponseWriter = None
  ∧ ∃ (code : Z) (h : gmap string (list string)),
      sent (corsMiddleware (@patientHandler doubling sampleDecoder)
              newResponseWriter getBadId seededD).1 = Some (code, h)
      ∧ h !! "Access-Control-Allow-Origin" = Some ["*"].
Proof.
  split; [reflexivity|].
  destruct (@X16_every_reply_has_cors_headers doubling sampleDecoder
              newResponseWriter getBadId seededD eq_refl)
    as (_ & code & h & H1 & _ & H3 & _).
  exists code, h. split; [exact H1|exact H3].
Defined.

Lemma X17_witness :
  store_ok seededD
  ∧ GoLib.ParseInt (idSegment (Path getThree)) = Some (nextID (store seededD))
  ∧ @patientHandler doubling sampleDecoder newResponseWriter getThree
      (@patientsHandler doubling sampleDecoder newResponseWriter postCarol
         seededD).2
    = (replied newResponseWriter 200
         (WResponse 200 "Ok" (PObject (setID carol (nextID (store seededD))))),
       (@patientsHandler doubling sampleDecoder newResponseWriter postCarol
          seededD).2).
Proof.
  assert (Hid : GoLib.ParseInt (idSegment (Path getThree))
                = Some (nextID (store seededD))).
  { vm_compute. reflexivity. }
  split_and!; [apply seededD_ok|exact Hid|].
  apply (@X17_post_then_get doubling sampleDecoder newResponseWriter
           newResponseWriter postCarol getThree seededD carol seededD_ok
           seededD_counter_unused eq_refl eq_refl);
    try (apply nonblank_by_eval; reflexivity);
    [reflexivity|reflexivity|exact Hid].
Defined.

Lemma X20_witness :
  store_ok seededD ∧ ids_fresh seededD 2
  ∧ ids_unique (@patientsHandler doubling sampleDecoder newResponseWriter
                  postCarol seededD).2.
Proof.
  split_and!; [apply seededD_ok|apply seededD_fresh|].
  assert (H0 : 0 ≤ 2) by lia.
  assert (H1 : 2 + 1 < 2 ^ 63) by (vm_compute; reflexivity).
  destruct (@X20_handlers_keep_invariant doubling sampleDecoder
              newResponseWriter postCarol seededD 2 seededD_ok seededD_fresh
              H0 H1) as ((_ & Hu & _) & _).
  exact Hu.
Defined.

(* ===================================================================== *)
(** ** The JSON decoder at sample inputs *)
(* ===================================================================== *)

Example Decode_object : GoJSON.Decode carolBody = Some carol.
Proof. vm_compute. reflexivity. Qed.

(** Nothing to read, a value cut short, a value of another kind, and a
    member of the wrong type are errors; [null] and the empty object store
    nothing. *)
Example Decode_errors :
  GoJSON.Decode "" = None ∧ GoJSON.Decode "  " = None
  ∧ GoJSON.Decode "{" = None ∧ GoJSON.Decode "not json" = None
  ∧ GoJSON.Decode "[]" = None ∧ GoJSON.Decode "12" = None
  ∧ GoJSON.Decode wrongTypeBody = None
  ∧ GoJSON.Decode "null" = Some zeroPatient
  ∧ GoJSON.Decode " {} " = Some zeroPatient.
Proof. vm_compute. auto 10. Qed.

(** Keys are matched without regard to case, unknown keys are skipped with
    their values, [null] leaves a field alone, and of two members for one
    field the later one stays. *)
Example Decode_keys :
  GoJSON.Decode
    ("{" +:+ quoted "ID" +:+ ":7," +:+ member "FullName" "a" +:+ ","
     +:+ quoted "other" +:+ ":[1,{}]," +:+ quoted "sex" +:+ ":null,"
     +:+ member "address" "x" +:+ "," +:+ member "Address" "y" +:+ "}")
  = Some (mkPatient 7 "a" "" "" "y").
Proof. vm_compute. reflexivity. Qed.

(** The id must be an integer literal within int64. *)
Example Decode_id :
  GoJSON.Decode ("{" +:+ quoted "id" +:+ ":-9223372036854775808}")
  = Some (mkPatient (- 2 ^ 63) "" "" "" "")
  ∧ GoJSON.Decode ("{" +:+ quoted "id" +:+ ":9223372036854775808}") = None
  ∧ GoJSON.Decode ("{" +:+ quoted "id" +:+ ":1.0}") = None
  ∧ GoJSON.Decode ("{" +:+ member "id" "7" +:+ "}") = None.
Proof. vm_compute. auto. Qed.

Example Valid_samples :
  GoJSON.Valid carolBody = true ∧ GoJSON.Valid garbageBody = false
  ∧ GoJSON.Valid wrongTypeBody = true ∧ GoJSON.Valid "" = false
  ∧ GoJSON.Valid " [1, 2.5e3, true, null] " = true
  ∧ GoJSON.Valid "[1,]" = false ∧ GoJSON.Valid "01" = false.
Proof. vm_compute. auto 10. Qed.
